(** * Marvins code-quality analyzer: the metrics engine of [src/lib/analyzer.js]

    A shallow embedding of the analyzer and the properties of its specification.

    Conventions of the model.
    - A JavaScript string is a [string]; a character stands for one code unit.
    - A JavaScript number that counts something is a [nat]; a number the code
      feeds to [Math.log], [Math.log2], [Math.sin] or [Math.sqrt] is a real
      number ([R]): the rounding of IEEE doubles, the infinities and NaN are
      outside the model.
    - A [Set] of strings is a [gset string].
    - The TypeScript compiler API is an interface ([TypeScript]): the parser
      ([ts.createSourceFile]) and the scanner ([ts.createScanner]) are
      collaborators the analyzer calls, not code of the analyzer.
    - An exception is an explicit result ([Throw]). *)

From Stdlib Require Import Reals Lra Lia List String Ascii Bool Arith.
From Stdlib Require Import Machin.
From stdpp Require Import gmap strings.
Import ListNotations.

Local Open Scope string_scope.
Local Open Scope list_scope.

(** ** Syntax kinds and syntax trees *)

(** [ts.SyntaxKind]: the members the analyzer names, some of the members it
    meets and does not name, and every other member by its numeric code. *)
Inductive SyntaxKind : Type :=
  (* tokens *)
  | EndOfFileToken
  | SingleLineCommentTrivia | MultiLineCommentTrivia | NewLineTrivia | WhitespaceTrivia
  | NumericLiteral | StringLiteral | NoSubstitutionTemplateLiteral
  | OpenBraceToken | CloseBraceToken | OpenParenToken | CloseParenToken
  | OpenBracketToken | CloseBracketToken
  | DotToken | SemicolonToken | CommaToken
  | LessThanToken | GreaterThanToken | LessThanEqualsToken | GreaterThanEqualsToken
  | EqualsEqualsToken | ExclamationEqualsToken
  | EqualsEqualsEqualsToken | ExclamationEqualsEqualsToken
  | EqualsGreaterThanToken
  | PlusToken | MinusToken | AsteriskToken | SlashToken | PercentToken
  | PlusPlusToken | MinusMinusToken
  | AmpersandToken | BarToken | ExclamationToken
  | AmpersandAmpersandToken | BarBarToken | QuestionQuestionToken
  | QuestionToken | ColonToken
  | EqualsToken | PlusEqualsToken | MinusEqualsToken | AsteriskEqualsToken
  | SlashEqualsToken | PercentEqualsToken
  | Identifier
  (* keywords *)
  | TrueKeyword | FalseKeyword | NullKeyword
  | FunctionKeyword | ReturnKeyword | IfKeyword | ElseKeyword
  | ClassKeyword | ConstKeyword | LetKeyword | DeclareKeyword
  | ExportKeyword | DefaultKeyword | VoidKeyword
  (* nodes *)
  | Parameter_ | MethodDeclaration | Constructor_
  | CallExpression | FunctionExpression | ArrowFunction
  | ConditionalExpression | BinaryExpression | PrefixUnaryExpression
  | Block | VariableStatement | ExpressionStatement
  | VariableDeclaration | VariableDeclarationList
  | IfStatement | DoStatement | WhileStatement
  | ForStatement | ForInStatement | ForOfStatement
  | ReturnStatement | SwitchStatement | TryStatement
  | FunctionDeclaration | ClassDeclaration
  | CaseBlock | CaseClause | DefaultClause | CatchClause
  | SourceFile
  | OtherSyntaxKind (code : N).

#[local] Set Warnings "-register-all".

(** A node of the syntax tree, with what the analyzer reads of it:
    [node.kind]; [node.operatorToken.kind] (a binary expression has an operator
    token, other nodes have none); [node.name.getText(sourceFile)] when the node
    has a name; [node.body] when it has one; [node.getText(sourceFile)]; and
    the children in the order [ts.forEachChild] hands them to its callback. *)
Inductive Node : Type :=
  mkNode {
    kind : SyntaxKind;
    operatorToken : option SyntaxKind;
    name : option string;
    body : option Node;
    getText : string;
    children : list Node
  }.

(** [ts.forEachChild(node, cb)] calls [cb] on each child in turn and stops at
    the first call that returns a truthy value. Both callbacks of the analyzer
    ([visit] and [traverse]) return [undefined], so every child is visited; the
    state the callback mutates is threaded through the calls. *)
Definition forEachChild {S : Type} (node : Node) (cbNode : Node -> S -> S) (s : S) : S :=
  fold_left (fun acc child => cbNode child acc) (children node) s.

(** [ts.isBinaryExpression(node)]: [node.kind === SyntaxKind.BinaryExpression]. *)
Definition isBinaryExpression (node : Node) : bool :=
  match kind node with BinaryExpression => true | _ => false end.

(** ** Decision points and cyclomatic complexity *)

Definition isDecisionPoint (node : Node) : bool :=
  match kind node with
  | IfStatement
  | ForStatement
  | ForOfStatement
  | ForInStatement
  | WhileStatement
  | DoStatement
  | CaseClause
  | CatchClause
  | ConditionalExpression => true
  | _ =>
      if isBinaryExpression node then
        match operatorToken node with
        | Some AmpersandAmpersandToken | Some BarBarToken => true
        | _ => false
        end
      else false
  end.

(** The inner function [visit] of [calculateCyclomaticComplexity]; the counter
    [complexity] it increments is its state. *)
Fixpoint visit (n : Node) (complexity : nat) {struct n} : nat :=
  let complexity := if isDecisionPoint n then S complexity else complexity in
  forEachChild n visit complexity.

Definition calculateCyclomaticComplexity (node : Node) : nat :=
  let complexity := 1 in
  visit node complexity.

(** ** Strings: the methods of [String.prototype] the analyzer calls *)

Definition newline : ascii := "010"%char.

(** White space and line terminators, as [trim] strips them (the code units
    below 256 among them: TAB, LF, VT, FF, CR, SP, NBSP). *)
Definition isWhiteSpace (c : ascii) : bool :=
  match nat_of_ascii c with
  | 9 | 10 | 11 | 12 | 13 | 32 | 160 => true
  | _ => false
  end.

Fixpoint trimStart (s : string) : string :=
  match s with
  | EmptyString => EmptyString
  | String c s' => if isWhiteSpace c then trimStart s' else s
  end.

Fixpoint trimEnd (s : string) : string :=
  match s with
  | EmptyString => EmptyString
  | String c s' =>
      match trimEnd s' with
      | EmptyString => if isWhiteSpace c then EmptyString else String c EmptyString
      | r => String c r
      end
  end.

(** [s.trim()] *)
Definition trim (s : string) : string := trimEnd (trimStart s).

(** [s.startsWith(p)] *)
Definition startsWith (s p : string) : bool := String.prefix p s.

(** [s.includes(p)] *)
Fixpoint includes (s p : string) : bool :=
  String.prefix p s ||
  match s with
  | EmptyString => false
  | String _ s' => includes s' p
  end.

(** [s.split(sep)] for a separator of one character: the segments between
    the separators, one more than there are separators. *)
Fixpoint split (s : string) (sep : ascii) : list string :=
  match s with
  | EmptyString => [EmptyString]
  | String c s' =>
      if Ascii.eqb c sep then EmptyString :: split s' sep
      else match split s' sep with
           | [] => [String c EmptyString]
           | seg :: segs => String c seg :: segs
           end
  end.

(** ** Lines of code and comment density *)

Definition calculateLOC (sourceCode : string) : nat :=
  List.length (split sourceCode newline).

(** The body of the [for (const line of lines)] loop of
    [calculateCommentDensity], on its two variables. *)
Definition commentLineStep (st : nat * bool) (line : string) : nat * bool :=
  let '(commentLines, inBlockComment) := st in
  let trimmed := trim line in
  if inBlockComment then
    (S commentLines, if includes trimmed "*/" then false else inBlockComment)
  else if startsWith trimmed "//" then
    (S commentLines, inBlockComment)
  else if startsWith trimmed "/*" then
    (S commentLines, if negb (includes trimmed "*/") then true else inBlockComment)
  else
    (commentLines, inBlockComment).

(** [calculateCommentDensity] from its second statement on: the loop over
    [lines] and the guarded division. *)
Definition commentDensityOfLines (lines : list string) : R :=
  let commentLines := 0 in
  let inBlockComment := false in
  let '(commentLines, _) := fold_left commentLineStep lines (commentLines, inBlockComment) in
  if (0 <? List.length lines)%nat then (INR commentLines / INR (List.length lines))%R else 0%R.

Definition calculateCommentDensity (sourceCode : string) : R :=
  let lines := split sourceCode newline in
  commentDensityOfLines lines.

(** ** Maintainability index *)

Section MaintainabilityIndex.
Local Open Scope R_scope.

(** The comparison [x > 0] of two numbers, as a boolean. *)
Definition isPositive (x : R) : bool := if Rlt_dec 0 x then true else false.

(** The local [bonus] of [calculateMaintainabilityIndex]. *)
Definition commentBonus (commentDensity commentDensityMultiplier : R) : R :=
  commentDensityMultiplier * sin (sqrt (2.4 * commentDensity)).

Definition calculateMaintainabilityIndex
    (cyclomatic halsteadVolume loc commentDensity commentDensityMultiplier : R) : R :=
  let safeVolume := if isPositive halsteadVolume then halsteadVolume else 1 in
  let safeLOC := if isPositive loc then loc else 1 in
  let baseMI := (171 - 5.2 * ln safeVolume - 0.23 * cyclomatic - 16.2 * ln safeLOC) * 100 / 171 in
  let bonus := commentBonus commentDensity commentDensityMultiplier in
  let mi := baseMI + bonus in
  Rmax 0 mi.

End MaintainabilityIndex.

(** ** Exceptions *)

Inductive Exception : Type :=
  Error (message : string).

(** The outcome of a call that may throw. *)
Inductive Result (A : Type) : Type :=
  | Return (value : A)
  | Throw (e : Exception).

Arguments Return {A} value.
Arguments Throw {A} e.

#[export] Instance Result_bind : MBind Result :=
  fun A B k r => match r with Return a => k a | Throw e => Throw e end.

(** ** The TypeScript compiler API *)

(** [createSourceFile fileName sourceText] is
    [ts.createSourceFile(fileName, sourceText, ts.ScriptTarget.Latest, true)].
    [scan sourceText] lists what a scanner made by
    [ts.createScanner(ts.ScriptTarget.Latest, false, ts.LanguageVariant.Standard, sourceText)]
    yields: the results of the successive calls of [scanner.scan()], each with
    the [scanner.getTokenText()] that follows it; the calls after the last one
    listed return [EndOfFileToken]. The scanner is made with [skipTrivia] off:
    white space, line breaks and comments are tokens of their own kinds. *)
Class TypeScript : Type := {
  createSourceFile : string -> string -> Result Node;
  scan : string -> list (SyntaxKind * string)
}.

(** ** Halstead volume *)

(** The four variables of [calculateHalsteadVolume]. *)
Record HalsteadCounters : Type := {
  totalOperators : nat;
  totalOperands : nat;
  uniqueOperators : gset string;
  uniqueOperands : gset string
}.

(** The [switch (token)] of the scanning loop. *)
Definition countToken (token : SyntaxKind) (tokenText : string)
    (c : HalsteadCounters) : HalsteadCounters :=
  match token with
  | PlusToken
  | MinusToken
  | AsteriskToken
  | SlashToken
  | PercentToken
  | EqualsEqualsToken
  | EqualsEqualsEqualsToken
  | ExclamationEqualsToken
  | ExclamationEqualsEqualsToken
  | LessThanToken
  | GreaterThanToken
  | LessThanEqualsToken
  | GreaterThanEqualsToken
  | AmpersandAmpersandToken
  | BarBarToken
  | QuestionToken
  | ColonToken
  | PlusPlusToken
  | MinusMinusToken
  | EqualsToken
  | PlusEqualsToken
  | MinusEqualsToken
  | AsteriskEqualsToken
  | SlashEqualsToken
  | PercentEqualsToken =>
      {| totalOperators := S (totalOperators c);
         totalOperands := totalOperands c;
         uniqueOperators := uniqueOperators c ∪ {[ tokenText ]};
         uniqueOperands := uniqueOperands c |}
  | Identifier
  | NumericLiteral
  | StringLiteral
  | TrueKeyword
  | FalseKeyword =>
      {| totalOperators := totalOperators c;
         totalOperands := S (totalOperands c);
         uniqueOperators := uniqueOperators c;
         uniqueOperands := uniqueOperands c ∪ {[ tokenText ]} |}
  | _ => c
  end.

(** The loop [while (token !== ts.SyntaxKind.EndOfFileToken)] over the
    scanner's results. *)
Fixpoint scanLoop (tokens : list (SyntaxKind * string)) (c : HalsteadCounters)
    : HalsteadCounters :=
  match tokens with
  | [] => c
  | (EndOfFileToken, _) :: _ => c
  | (token, tokenText) :: rest => scanLoop rest (countToken token tokenText c)
  end.

(** [Math.log2] *)
Definition Math_log2 (x : R) : R := (ln x / ln 2)%R.

Definition halsteadVolumeOf (c : HalsteadCounters) : R :=
  let vocabulary := size (uniqueOperators c) + size (uniqueOperands c) in
  let length := totalOperators c + totalOperands c in
  let volume := if (0 <? vocabulary)%nat then (INR length * Math_log2 (INR vocabulary))%R else 0%R in
  volume.

Definition calculateHalsteadVolume {ts : TypeScript} (sourceCode : string) : R :=
  halsteadVolumeOf
    (scanLoop (scan sourceCode)
       {| totalOperators := 0; totalOperands := 0;
          uniqueOperators := ∅; uniqueOperands := ∅ |}).

(** ** The file analyzer *)

(** What a process can observe besides its arguments: the files, the clock
    ([Date.now()]) and the state of the generator behind [Math.random()]. *)
Record World : Type := {
  files : gmap string string;
  clock : N;
  entropy : N
}.

(** [fs.readFileSync(filePath, 'utf8')] *)
Definition readSourceFile (w : World) (filePath : string) : Result string :=
  match files w !! filePath with
  | Some sourceCode => Return sourceCode
  | None => Throw (Error ("ENOENT: no such file or directory, open '" ++ filePath ++ "'"))
  end.

Record MetricRecord : Type := {
  methodName : string;
  cyclomatic : nat;
  halsteadVolume : R;
  loc : nat;
  maintainabilityIndex : R
}.

(** The object [{ results, commentDensity }] that [analyzeMethods] returns. *)
Record Analysis : Type := {
  results : list MetricRecord;
  commentDensity : R
}.

Section FileAnalyzer.
Context {ts : TypeScript}.

(** The inner function [traverse] of [analyzeMethods]; the array [results] it
    pushes to is its state, [commentDensity] and [commentDensityMultiplier] are
    the variables of [analyzeMethods] it reads. *)
Fixpoint traverse (commentDensity commentDensityMultiplier : R)
    (node : Node) (results : list MetricRecord) {struct node} : list MetricRecord :=
  let results :=
    match kind node with
    | FunctionDeclaration | MethodDeclaration =>
        let methodText := getText node in
        let methodName :=
          match name node with Some nameText => nameText | None => "<anonymous>" end in
        match body node with
        | Some body =>
            let cyclomatic := calculateCyclomaticComplexity body in
            let halsteadVolume := calculateHalsteadVolume methodText in
            let loc := calculateLOC methodText in
            let maintainabilityIndex :=
              calculateMaintainabilityIndex (INR cyclomatic) halsteadVolume (INR loc)
                commentDensity commentDensityMultiplier in
            results ++ [ {| methodName := methodName;
                            cyclomatic := cyclomatic;
                            halsteadVolume := halsteadVolume;
                            loc := loc;
                            maintainabilityIndex := maintainabilityIndex |} ]
        | None => results
        end
    | _ => results
    end in
  forEachChild node (traverse commentDensity commentDensityMultiplier) results.

(** [analyzeMethods(filePath, commentDensityMultiplier = 5)]; an argument that
    is left out (or [undefined]) is [None]. *)
Definition analyzeMethods (w : World) (filePath : string)
    (commentDensityMultiplier : option R) : Result Analysis :=
  let commentDensityMultiplier := default 5%R commentDensityMultiplier in
  sourceCode ← readSourceFile w filePath;
  sourceFile ← createSourceFile filePath sourceCode;
  let results := [] in
  let commentDensity := calculateCommentDensity sourceCode in
  let results := traverse commentDensity commentDensityMultiplier sourceFile results in
  Return {| results := results; commentDensity := commentDensity |}.

End FileAnalyzer.

(** ** The notions the specification states its properties with *)

(** The nodes of the subtree rooted at a node, in pre-order (document order):
    the node, then the subtrees of its children from first to last. *)
Fixpoint preorder (n : Node) : list Node :=
  n :: flat_map preorder (children n).

(** The decision points of a subtree. *)
Definition decisionPoints (n : Node) : list Node :=
  List.filter isDecisionPoint (preorder n).

(** The Decision-Point Classifier as the specification words it, on a kind and
    an operator. *)
Definition isLoopKind (k : SyntaxKind) : bool :=
  match k with
  | ForStatement | ForOfStatement | ForInStatement | WhileStatement | DoStatement => true
  | _ => false
  end.

Definition isLogicalOperator (k : SyntaxKind) : bool :=
  match k with
  | AmpersandAmpersandToken | BarBarToken => true
  | _ => false
  end.

Definition decisionPointKind (k : SyntaxKind) (operator : option SyntaxKind) : bool :=
  match k with
  | IfStatement | CaseClause | CatchClause | ConditionalExpression => true
  | BinaryExpression =>
      match operator with Some op => isLogicalOperator op | None => false end
  | _ => isLoopKind k
  end.

(** The operator and operand sets of the Halstead Volume Calculator as the
    specification lists them. *)
Definition isArithmeticOperator (k : SyntaxKind) : bool :=
  match k with
  | PlusToken | MinusToken | AsteriskToken | SlashToken | PercentToken => true
  | _ => false
  end.

Definition isEqualityOperator (k : SyntaxKind) : bool :=
  match k with
  | EqualsEqualsToken | EqualsEqualsEqualsToken
  | ExclamationEqualsToken | ExclamationEqualsEqualsToken => true
  | _ => false
  end.

Definition isRelationalOperator (k : SyntaxKind) : bool :=
  match k with
  | LessThanToken | GreaterThanToken | LessThanEqualsToken | GreaterThanEqualsToken => true
  | _ => false
  end.

Definition isTernaryPunctuation (k : SyntaxKind) : bool :=
  match k with QuestionToken | ColonToken => true | _ => false end.

Definition isIncrementOrDecrement (k : SyntaxKind) : bool :=
  match k with PlusPlusToken | MinusMinusToken => true | _ => false end.

Definition isAssignmentOperator (k : SyntaxKind) : bool :=
  match k with
  | EqualsToken | PlusEqualsToken | MinusEqualsToken
  | AsteriskEqualsToken | SlashEqualsToken | PercentEqualsToken => true
  | _ => false
  end.

Definition isOperator (k : SyntaxKind) : bool :=
  isArithmeticOperator k || isEqualityOperator k || isRelationalOperator k
  || isLogicalOperator k || isTernaryPunctuation k || isIncrementOrDecrement k
  || isAssignmentOperator k.

Definition isOperand (k : SyntaxKind) : bool :=
  match k with
  | Identifier | NumericLiteral | StringLiteral | TrueKeyword | FalseKeyword => true
  | _ => false
  end.

(** The token stream of a text: what the scanner yields before the end of
    file. *)
Fixpoint tokensBeforeEOF (tokens : list (SyntaxKind * string)) : list (SyntaxKind * string) :=
  match tokens with
  | [] => []
  | (EndOfFileToken, _) :: _ => []
  | t :: rest => t :: tokensBeforeEOF rest
  end.

Definition tokenStream {ts : TypeScript} (sourceText : string) : list (SyntaxKind * string) :=
  tokensBeforeEOF (scan sourceText).

Definition operatorTokens {ts : TypeScript} (sourceText : string) : list (SyntaxKind * string) :=
  List.filter (fun t => isOperator (fst t)) (tokenStream sourceText).

Definition operandTokens {ts : TypeScript} (sourceText : string) : list (SyntaxKind * string) :=
  List.filter (fun t => isOperand (fst t)) (tokenStream sourceText).

(** The lexemes of some tokens, as a set. *)
Definition lexemes (tokens : list (SyntaxKind * string)) : gset string :=
  list_to_set (map snd tokens).

(** The vocabulary of a text: unique operators plus unique operands. *)
Definition vocabularyOf {ts : TypeScript} (sourceText : string) : nat :=
  size (lexemes (operatorTokens sourceText)) + size (lexemes (operandTokens sourceText)).

(** The line classifier of the Comment Density Calculator as the specification
    words it: for each line, whether it counts as a comment line, given the
    flag [inBlockComment] before the line. *)
Fixpoint commentLineFlags (inBlockComment : bool) (lines : list string) : list bool :=
  match lines with
  | [] => []
  | line :: rest =>
      let trimmed := trim line in
      if inBlockComment then
        true :: commentLineFlags (negb (includes trimmed "*/")) rest
      else if startsWith trimmed "//" then
        true :: commentLineFlags false rest
      else if startsWith trimmed "/*" then
        true :: commentLineFlags (negb (includes trimmed "*/")) rest
      else
        false :: commentLineFlags false rest
  end.

Definition countCommentLines (lines : list string) : nat :=
  List.length (List.filter (fun flag : bool => flag) (commentLineFlags false lines)).

(** The maintainability index as the specification writes it: 1 replaces a
    volume or a line count that is not above 0. *)
Definition safeValue (x : R) : R := if Rle_dec x 0 then 1%R else x.

Definition maintainabilityFormula (cc v loc cd m : R) : R :=
  Rmax 0 ((171 - 5.2 * ln (safeValue v) - 0.23 * cc - 16.2 * ln (safeValue loc)) * 100 / 171
          + m * sin (sqrt (2.4 * cd)))%R.

(** A function or method declaration that has a body. *)
Definition isFunctionOrMethod (n : Node) : bool :=
  match kind n with
  | FunctionDeclaration | MethodDeclaration => true
  | _ => false
  end.

Definition hasBody (n : Node) : bool :=
  match body n with Some _ => true | None => false end.

Definition isAnalyzedDeclaration (n : Node) : bool :=
  isFunctionOrMethod n && hasBody n.

(** The MetricRecord of a node, if the node gets one. *)
Definition declarationRecord {ts : TypeScript} (cd m : R) (n : Node) : option MetricRecord :=
  if isFunctionOrMethod n then
    match body n with
    | Some b =>
        let cc := calculateCyclomaticComplexity b in
        let v := calculateHalsteadVolume (getText n) in
        let lines := calculateLOC (getText n) in
        Some {| methodName := default "<anonymous>" (name n);
                cyclomatic := cc;
                halsteadVolume := v;
                loc := lines;
                maintainabilityIndex := calculateMaintainabilityIndex (INR cc) v (INR lines) cd m |}
    | None => None
    end
  else None.

(** The complete record sequence of a tree: the records of its nodes, in
    pre-order. *)
Definition recordsOf {ts : TypeScript} (cd m : R) (root : Node) : list MetricRecord :=
  omap (declarationRecord cd m) (preorder root).

(** ** Sample sources *)

(** Two TypeScript files with the trees and the tokens TypeScript gives for
    them; the analyzer is run on them further down. *)
Module Sample.

Definition leaf (k : SyntaxKind) (text : string) : Node :=
  mkNode k None None None text [].

Definition parameter (text : string) : Node :=
  mkNode Parameter_ None (Some text) None text [leaf Identifier text].

(** [add.ts]: a comment line and one function. *)
Definition addText : string := "function add(a, b) { return a + b; }".

Definition addSource : string :=
  "// the sum of two numbers" ++ String newline addText.

Definition addBody : Node :=
  mkNode Block None None None "{ return a + b; }"
    [ mkNode ReturnStatement None None None "return a + b;"
        [ mkNode BinaryExpression (Some PlusToken) None None "a + b"
            [ leaf Identifier "a"; leaf PlusToken "+"; leaf Identifier "b" ] ] ].

Definition addDeclaration : Node :=
  mkNode FunctionDeclaration None (Some "add") (Some addBody) addText
    [ leaf Identifier "add"; parameter "a"; parameter "b"; addBody ].

Definition addFile : Node :=
  mkNode SourceFile None None None addText [ addDeclaration; leaf EndOfFileToken "" ].

Definition space : SyntaxKind * string := (WhitespaceTrivia, " ").
Definition indent : SyntaxKind * string := (WhitespaceTrivia, "  ").
Definition lineBreak : SyntaxKind * string := (NewLineTrivia, String newline "").

Definition addTokens : list (SyntaxKind * string) :=
  [ (FunctionKeyword, "function"); space; (Identifier, "add"); (OpenParenToken, "(");
    (Identifier, "a"); (CommaToken, ","); space; (Identifier, "b");
    (CloseParenToken, ")"); space; (OpenBraceToken, "{"); space;
    (ReturnKeyword, "return"); space; (Identifier, "a"); space; (PlusToken, "+"); space;
    (Identifier, "b"); (SemicolonToken, ";"); space; (CloseBraceToken, "}") ].

(** [nested.ts]: an unnamed function that holds a named one, and a signature
    without a body. *)
Definition innerText : string := "function inner(x) { return x && 1; }".

Definition outerText : string :=
  "export default function () {" ++ String newline
    ("  " ++ innerText ++ String newline
       ("  return inner;" ++ String newline "}")).

Definition signatureText : string := "declare function sig(): void;".

Definition nestedSource : string := outerText ++ String newline signatureText.

Definition innerBody : Node :=
  mkNode Block None None None "{ return x && 1; }"
    [ mkNode ReturnStatement None None None "return x && 1;"
        [ mkNode BinaryExpression (Some AmpersandAmpersandToken) None None "x && 1"
            [ leaf Identifier "x"; leaf AmpersandAmpersandToken "&&";
              leaf NumericLiteral "1" ] ] ].

Definition innerDeclaration : Node :=
  mkNode FunctionDeclaration None (Some "inner") (Some innerBody) innerText
    [ leaf Identifier "inner"; parameter "x"; innerBody ].

Definition outerBody : Node :=
  mkNode Block None None None
    ("{" ++ String newline
       ("  " ++ innerText ++ String newline
          ("  return inner;" ++ String newline "}")))
    [ innerDeclaration;
      mkNode ReturnStatement None None None "return inner;" [ leaf Identifier "inner" ] ].

Definition outerDeclaration : Node :=
  mkNode FunctionDeclaration None None (Some outerBody) outerText
    [ leaf ExportKeyword "export"; leaf DefaultKeyword "default"; outerBody ].

Definition signatureDeclaration : Node :=
  mkNode FunctionDeclaration None (Some "sig") None signatureText
    [ leaf DeclareKeyword "declare"; leaf Identifier "sig"; leaf VoidKeyword "void" ].

Definition nestedFile : Node :=
  mkNode SourceFile None None None nestedSource
    [ outerDeclaration; signatureDeclaration; leaf EndOfFileToken "" ].

Definition innerTokens : list (SyntaxKind * string) :=
  [ (FunctionKeyword, "function"); space; (Identifier, "inner"); (OpenParenToken, "(");
    (Identifier, "x"); (CloseParenToken, ")"); space; (OpenBraceToken, "{"); space;
    (ReturnKeyword, "return"); space; (Identifier, "x"); space;
    (AmpersandAmpersandToken, "&&"); space; (NumericLiteral, "1");
    (SemicolonToken, ";"); space; (CloseBraceToken, "}") ].

Definition outerTokens : list (SyntaxKind * string) :=
  [ (ExportKeyword, "export"); space; (DefaultKeyword, "default"); space;
    (FunctionKeyword, "function"); space; (OpenParenToken, "("); (CloseParenToken, ")");
    space; (OpenBraceToken, "{"); lineBreak; indent ]
  ++ innerTokens
  ++ [ lineBreak; indent; (ReturnKeyword, "return"); space; (Identifier, "inner");
       (SemicolonToken, ";"); lineBreak; (CloseBraceToken, "}") ].

(** [empty.ts]: a function with nothing in it, and its tokens. *)
Definition emptyText : string := "function f() {}".

Definition emptyTokens : list (SyntaxKind * string) :=
  [ (FunctionKeyword, "function"); space; (Identifier, "f"); (OpenParenToken, "(");
    (CloseParenToken, ")"); space; (OpenBraceToken, "{"); (CloseBraceToken, "}") ].

(** [constant.ts]: a statement and no function. *)
Definition constantSource : string := "const n = 1;".

Definition constantFile : Node :=
  mkNode SourceFile None None None constantSource
    [ mkNode VariableStatement None None None constantSource
        [ mkNode VariableDeclarationList None None None "const n = 1"
            [ mkNode VariableDeclaration None (Some "n") None "n = 1"
                [ leaf Identifier "n"; leaf NumericLiteral "1" ] ] ];
      leaf EndOfFileToken "" ].

(** [broken.ts]: malformed source, a function declaration that stops after its
    opening parenthesis. The parser of TypeScript does not throw on it: it
    recovers, records the syntax errors in the diagnostics of the source file
    (which the analyzer does not read) and returns a tree, here a function
    declaration with a missing (empty) name, no parameter and no body. *)
Definition brokenSource : string := "function (".

Definition brokenFile : Node :=
  mkNode SourceFile None None None brokenSource
    [ mkNode FunctionDeclaration None (Some "") None brokenSource [ leaf Identifier "" ];
      leaf EndOfFileToken "" ].

(** The tree of a text without statements, as of the empty text. *)
Definition fileWithoutStatements (sourceText : string) : Node :=
  mkNode SourceFile None None None sourceText [ leaf EndOfFileToken "" ].

(** The interface on the sample sources, which are all the texts of the sample
    world. The parser returns a tree for every text, as [ts.createSourceFile]
    does; for a text that is none of the samples the instance has no tree of
    TypeScript to give and answers with a file without statements, and its
    scanner is at the end of file at once. *)
#[export] Instance typescript : TypeScript := {
  createSourceFile fileName sourceText :=
    if String.eqb sourceText addSource then Return addFile
    else if String.eqb sourceText nestedSource then Return nestedFile
    else if String.eqb sourceText constantSource then Return constantFile
    else if String.eqb sourceText brokenSource then Return brokenFile
    else Return (fileWithoutStatements sourceText);
  scan sourceText :=
    if String.eqb sourceText addText then addTokens
    else if String.eqb sourceText innerText then innerTokens
    else if String.eqb sourceText outerText then outerTokens
    else if String.eqb sourceText emptyText then emptyTokens
    else []
}.

Definition world : World :=
  {| files := {[ "/src/add.ts" := addSource;
                 "/src/nested.ts" := nestedSource;
                 "/src/constant.ts" := constantSource;
                 "/src/broken.ts" := brokenSource ]};
     clock := 1762041600000;
     entropy := 42 |}.

End Sample.

(** ** The colours of the report: [src/bin/cli.js] *)

Module Cli.

(** The character [\x1b]. *)
Definition escape : string := String (ascii_of_nat 27) EmptyString.

(** The object [colors]: the ANSI colour codes. *)
Record Colors : Type := {
  red : string;
  green : string;
  yellow : string;
  blue : string;
  magenta : string;
  cyan : string;
  white : string;
  purple : string;
  reset : string
}.

Definition colors : Colors := {|
  red := escape ++ "[31m";
  green := escape ++ "[32m";
  yellow := escape ++ "[33m";
  blue := escape ++ "[34m";
  magenta := escape ++ "[35m";
  cyan := escape ++ "[36m";
  white := escape ++ "[37m";
  purple := escape ++ "[35m";
  reset := escape ++ "[0m"
|}.

(** The thresholds of a metric: [{ medium, high }] for the cyclomatic
    complexity and the lines of code, [{ low, medium }] for the maintainability
    index. *)
Module MediumHigh.
Record t : Type := { medium : R; high : R }.
End MediumHigh.

Module LowMedium.
Record t : Type := { low : R; medium : R }.
End LowMedium.

(** The configuration object, with the fields [defaultConfig] has and numbers
    in them. *)
Record Config : Type := {
  cyclomatic : MediumHigh.t;
  maintainabilityIndex : LowMedium.t;
  loc : MediumHigh.t;
  commentDensityMultiplier : R
}.

Definition defaultConfig : Config := {|
  cyclomatic := {| MediumHigh.medium := 6; MediumHigh.high := 10 |};
  maintainabilityIndex := {| LowMedium.low := 40; LowMedium.medium := 60 |};
  loc := {| MediumHigh.medium := 20; MediumHigh.high := 40 |};
  commentDensityMultiplier := 5
|}.

(** The comparisons [x >= y] and [x < y] of two numbers, as booleans. *)
Definition geb (x y : R) : bool := if Rle_dec y x then true else false.
Definition ltb (x y : R) : bool := if Rlt_dec x y then true else false.

Definition colorForCyclomatic (cc : R) (config : Config) : string :=
  if geb cc (MediumHigh.high (cyclomatic config)) then
    red colors
  else if geb cc (MediumHigh.medium (cyclomatic config)) then
    yellow colors
  else
    green colors.

Definition colorForMI (mi : R) (config : Config) : string :=
  if ltb mi (LowMedium.low (maintainabilityIndex config)) then
    red colors
  else if ltb mi (LowMedium.medium (maintainabilityIndex config)) then
    yellow colors
  else
    green colors.

Definition colorForLOC (loc : R) (config : Config) : string :=
  if geb loc (MediumHigh.high (Cli.loc config)) then
    red colors
  else if geb loc (MediumHigh.medium (Cli.loc config)) then
    yellow colors
  else
    green colors.

(** A configuration as [marvins configure -t cyclomatic 10 6] and
    [marvins configure -t maintainabilityIndex 60 40] leave it: the first
    threshold above the second. *)
Definition crossedConfig : Config := {|
  cyclomatic := {| MediumHigh.medium := 10; MediumHigh.high := 6 |};
  maintainabilityIndex := {| LowMedium.low := 60; LowMedium.medium := 40 |};
  loc := {| MediumHigh.medium := 40; MediumHigh.high := 20 |};
  commentDensityMultiplier := 5
|}.

End Cli.

(** ** More notions for the properties *)

(** A string of white space only. *)
Fixpoint isBlank (s : string) : bool :=
  match s with
  | EmptyString => true
  | String c s' => isWhiteSpace c && isBlank s'
  end.

(** The number of line feeds of a text. *)
Fixpoint countLineFeeds (s : string) : nat :=
  match s with
  | EmptyString => 0
  | String c s' => (if Ascii.eqb c newline then 1 else 0) + countLineFeeds s'
  end.

(** The flag [inBlockComment] after the loop of [calculateCommentDensity] has
    gone through some lines. *)
Definition inBlockCommentAfter (lines : list string) : bool :=
  snd (fold_left commentLineStep lines (0, false)).

(** The characters CR and TAB, as strings. *)
Definition carriageReturn : string := String (ascii_of_nat 13) EmptyString.
Definition tab : string := String (ascii_of_nat 9) EmptyString.

(** The tokens of a text that the Halstead calculator counts. *)
Definition countedTokens {ts : TypeScript} (sourceText : string) : list (SyntaxKind * string) :=
  List.filter (fun t => isOperator (fst t) || isOperand (fst t)) (tokenStream sourceText).

(** ** A second sample: the function [add] with its operands swapped *)

Module Swapped.

Definition swappedText : string := "function add(b, a) { return b + a; }".

Definition swappedTokens : list (SyntaxKind * string) :=
  [ (FunctionKeyword, "function"); Sample.space; (Identifier, "add"); (OpenParenToken, "(");
    (Identifier, "b"); (CommaToken, ","); Sample.space; (Identifier, "a");
    (CloseParenToken, ")"); Sample.space; (OpenBraceToken, "{"); Sample.space;
    (ReturnKeyword, "return"); Sample.space; (Identifier, "b"); Sample.space;
    (PlusToken, "+"); Sample.space; (Identifier, "a"); (SemicolonToken, ";");
    Sample.space; (CloseBraceToken, "}") ].

(** The scanner on the two texts of [add]; the parser is not used and gives
    every text the tree of a file without statements. *)
#[export] Instance typescript : TypeScript := {
  createSourceFile fileName sourceText := Return (Sample.fileWithoutStatements sourceText);
  scan sourceText :=
    if String.eqb sourceText Sample.addText then Sample.addTokens
    else if String.eqb sourceText swappedText then swappedTokens
    else []
}.

End Swapped.

(** ** Induction on syntax trees *)

(** Induction over a tree through the children of each node. *)
Section NodeInduction.
Variable P : Node -> Prop.
Hypothesis P_node : forall n, Forall P (children n) -> P n.

Fixpoint Node_children_ind (n : Node) : P n :=
  match n as n0 return P n0 with
  | mkNode k op nm b t cs =>
      P_node (mkNode k op nm b t cs)
        ((fix all (l : list Node) : Forall P l :=
            match l with
            | [] => @List.Forall_nil Node P
            | c :: l' => @List.Forall_cons Node P c l' (Node_children_ind c) (all l')
            end) cs)
  end.

End NodeInduction.

(** * Properties *)

#[local] Set Warnings "-clear-no-such-hyp".

(** A callback that appends to its state a list that depends on the node only
    appends, over the children of a node, the lists of the children in order. *)
Lemma forEachChild_append {A : Type} (f : Node -> list A -> list A) (g : Node -> list A) n :
  Forall (fun c => forall acc, f c acc = acc ++ g c) (children n) ->
  forall acc, forEachChild n f acc = acc ++ flat_map g (children n).
Proof.
  unfold forEachChild. induction 1 as [|c cs Hc _ IH]; intros acc; simpl.
  - now rewrite app_nil_r.
  - rewrite Hc, IH. now rewrite <- app_assoc.
Qed.

(** ** Decision points *)

Ltac pick_disjunct :=
  solve [ repeat (first [ left; reflexivity | split; [reflexivity|] | right ]); reflexivity ].

Lemma isDecisionPoint_kind n :
  isDecisionPoint n = decisionPointKind (kind n) (operatorToken n).
Proof.
  destruct n as [k op nm b t cs]; unfold isDecisionPoint, isBinaryExpression; simpl.
  destruct k; reflexivity.
Qed.

(** C3. [isDecisionPoint] depends on the kind of the node and, for a binary
    expression, on its operator token, and on nothing else; it is true exactly
    on an if statement, a for, for-of, for-in, while or do-while loop, a case
    clause, a catch clause, a conditional expression, and a binary expression
    whose operator is [&&] or [||], and false on every other node. *)
Theorem isDecisionPoint_classifier :
  (forall n, isDecisionPoint n = decisionPointKind (kind n) (operatorToken n))
  /\ (forall n,
        isDecisionPoint n = true <->
        kind n = IfStatement \/ kind n = ForStatement \/ kind n = ForOfStatement
        \/ kind n = ForInStatement \/ kind n = WhileStatement \/ kind n = DoStatement
        \/ kind n = CaseClause \/ kind n = CatchClause
        \/ kind n = ConditionalExpression
        \/ (kind n = BinaryExpression
            /\ (operatorToken n = Some AmpersandAmpersandToken
                \/ operatorToken n = Some BarBarToken)))
  /\ (forall n1 n2,
        kind n1 = kind n2 ->
        (kind n1 = BinaryExpression -> operatorToken n1 = operatorToken n2) ->
        isDecisionPoint n1 = isDecisionPoint n2).
Proof.
  split; [exact isDecisionPoint_kind|split].
  - intros [k op nm b t cs]. unfold isDecisionPoint, isBinaryExpression; simpl. split.
    + destruct k; try discriminate; try (intros _; pick_disjunct).
      destruct op as [op|]; [destruct op|]; try discriminate; intros _.
      * do 9 right. split; [reflexivity|left; reflexivity].
      * do 9 right. split; [reflexivity|right; reflexivity].
    + intros Hk.
      repeat (destruct Hk as [Hk|Hk]; [rewrite Hk; reflexivity|]).
      destruct Hk as [Hk [Hop|Hop]]; rewrite Hk, Hop; reflexivity.
  - intros n1 n2 Hk Hop. rewrite !isDecisionPoint_kind, <- Hk.
    destruct (kind n1); try reflexivity.
    rewrite Hop; reflexivity.
Qed.

(** ** Cyclomatic complexity *)

Lemma visit_children_count cs :
  Forall (fun c => forall k, visit c k = k + List.length (decisionPoints c)) cs ->
  forall k,
    fold_left (fun acc child => visit child acc) cs k
    = k + List.length (List.filter isDecisionPoint (flat_map preorder cs)).
Proof.
  induction 1 as [|c cs Hc _ IH]; intros k; simpl.
  - lia.
  - rewrite IH, Hc. unfold decisionPoints.
    rewrite List.filter_app, List.length_app. lia.
Qed.

(** [visit] adds to the counter the number of decision points of the subtree. *)
Lemma visit_count n : forall k, visit n k = k + List.length (decisionPoints n).
Proof.
  induction n as [n IH] using Node_children_ind. intros k.
  destruct n as [kd op nm b t cs]. simpl in IH.
  change (visit (mkNode kd op nm b t cs) k)
    with (fold_left (fun acc child => visit child acc) cs
            (if isDecisionPoint (mkNode kd op nm b t cs) then S k else k)).
  rewrite (visit_children_count cs IH).
  unfold decisionPoints. simpl preorder. simpl List.filter.
  destruct (isDecisionPoint (mkNode kd op nm b t cs)); simpl; lia.
Qed.

(** C2. The cyclomatic complexity of a node is 1 plus the number of decision
    points among the node and all its descendants, whatever their kinds (the
    nodes of nested functions included); it is at least 1, and it is 1 exactly
    when the subtree has no decision point. *)
Theorem cyclomaticComplexity_counts_decision_points (node : Node) :
  calculateCyclomaticComplexity node
  = 1 + List.length (List.filter isDecisionPoint (preorder node))
  /\ 1 <= calculateCyclomaticComplexity node
  /\ (calculateCyclomaticComplexity node = 1
      <-> List.filter isDecisionPoint (preorder node) = []).
Proof.
  unfold calculateCyclomaticComplexity. rewrite visit_count. unfold decisionPoints.
  split; [reflexivity|split; [lia|]].
  destruct (List.filter isDecisionPoint (preorder node)); simpl; split;
    intros; try reflexivity; try discriminate; lia.
Qed.

(** An if statement whose condition is a conjunction: base 1, the [if] and the
    [&&]. *)
Example cyclomaticComplexity_if_and :
  calculateCyclomaticComplexity
    (mkNode Block None None None "{ if (a && b) { } }"
       [ mkNode IfStatement None None None "if (a && b) { }"
           [ mkNode BinaryExpression (Some AmpersandAmpersandToken) None None "a && b"
               [ Sample.leaf Identifier "a"; Sample.leaf AmpersandAmpersandToken "&&";
                 Sample.leaf Identifier "b" ];
             mkNode Block None None None "{ }" [] ] ]) = 3.
Proof. reflexivity. Qed.

(** The decision point of a nested function counts for the enclosing one. *)
Example cyclomaticComplexity_nested :
  calculateCyclomaticComplexity Sample.outerBody = 2
  /\ calculateCyclomaticComplexity Sample.innerBody = 2
  /\ calculateCyclomaticComplexity Sample.addBody = 1.
Proof. repeat split; reflexivity. Qed.

(** ** Halstead volume *)

Section Halstead.
Context {ts : TypeScript}.

(** The [switch] of the scanning loop, by the operator and operand sets. *)
Lemma countToken_classes token tokenText c :
  countToken token tokenText c =
  if isOperator token then
    {| totalOperators := S (totalOperators c);
       totalOperands := totalOperands c;
       uniqueOperators := uniqueOperators c ∪ {[ tokenText ]};
       uniqueOperands := uniqueOperands c |}
  else if isOperand token then
    {| totalOperators := totalOperators c;
       totalOperands := S (totalOperands c);
       uniqueOperators := uniqueOperators c;
       uniqueOperands := uniqueOperands c ∪ {[ tokenText ]} |}
  else c.
Proof. destruct token; reflexivity. Qed.

Lemma scanLoop_cons token tokenText rest c :
  token = EndOfFileToken
  \/ (scanLoop ((token, tokenText) :: rest) c = scanLoop rest (countToken token tokenText c)
      /\ tokensBeforeEOF ((token, tokenText) :: rest)
         = (token, tokenText) :: tokensBeforeEOF rest).
Proof. destruct token; auto. Qed.

(** The counters after the loop: the totals count the operator and operand
    tokens met before the end of file, the sets collect their lexemes. *)
Lemma scanLoop_counts tokens : forall c,
  scanLoop tokens c =
  let stream := tokensBeforeEOF tokens in
  let operators := List.filter (fun t => isOperator (fst t)) stream in
  let operands := List.filter (fun t => isOperand (fst t)) stream in
  {| totalOperators := totalOperators c + List.length operators;
     totalOperands := totalOperands c + List.length operands;
     uniqueOperators := uniqueOperators c ∪ lexemes operators;
     uniqueOperands := uniqueOperands c ∪ lexemes operands |}.
Proof.
  induction tokens as [|[token tokenText] rest IH]; intros c.
  - destruct c; cbn. f_equal; first [lia | set_solver].
  - destruct (scanLoop_cons token tokenText rest c) as [->|[-> ->]].
    + destruct c; cbn. f_equal; first [lia | set_solver].
    + rewrite IH, countToken_classes. cbn -[isOperator isOperand].
      destruct (isOperator token) eqn:Hop; destruct (isOperand token) eqn:Hnd;
        try (destruct token; discriminate);
        unfold lexemes; cbn; f_equal; first [lia | set_solver].
Qed.

Lemma size_lexemes_le tokens : size (lexemes tokens) <= List.length tokens.
Proof.
  unfold lexemes. induction tokens as [|t tokens IH]; cbn.
  - rewrite size_empty. lia.
  - rewrite size_union_alt, size_singleton.
    assert (size (list_to_set (map snd tokens) ∖ {[ t.2 ]} : gset string)
            <= size (list_to_set (map snd tokens) : gset string))
      by (apply subseteq_size; set_solver).
    lia.
Qed.

Lemma size_lexemes_0 tokens : size (lexemes tokens) = 0 <-> tokens = [].
Proof.
  split.
  - destruct tokens as [|t tokens]; [reflexivity|]. intros Hsize.
    apply size_empty_inv in Hsize. unfold lexemes in Hsize. cbn in Hsize. set_solver.
  - intros ->. apply size_empty.
Qed.

(** The volume by the token stream. *)
Lemma calculateHalsteadVolume_stream sourceText :
  calculateHalsteadVolume sourceText =
  let length := List.length (operatorTokens sourceText) + List.length (operandTokens sourceText) in
  let vocabulary := vocabularyOf sourceText in
  if (0 <? vocabulary)%nat then (INR length * Math_log2 (INR vocabulary))%R else 0%R.
Proof.
  unfold calculateHalsteadVolume. rewrite scanLoop_counts.
  unfold halsteadVolumeOf, vocabularyOf, operatorTokens, operandTokens, tokenStream.
  cbn. rewrite !union_empty_l_L. reflexivity.
Qed.

End Halstead.

(** [Math.log2] on the vocabularies the calculator meets. *)
Section Log2.
Local Open Scope R_scope.

Lemma ln_2_pos : 0 < ln 2.
Proof. pose proof ln_lt_2. lra. Qed.

Lemma Math_log2_1 : Math_log2 1 = 0.
Proof. unfold Math_log2. rewrite ln_1. lra. Qed.

Lemma Math_log2_pos x : 1 < x -> 0 < Math_log2 x.
Proof.
  intros Hx. unfold Math_log2.
  apply Rdiv_lt_0_compat; [|apply ln_2_pos].
  rewrite <- ln_1. apply ln_increasing; lra.
Qed.

Lemma Math_log2_nonneg x : 1 <= x -> 0 <= Math_log2 x.
Proof.
  intros [Hx|<-].
  - left. now apply Math_log2_pos.
  - rewrite Math_log2_1. lra.
Qed.

Lemma INR_ge_1 n : (1 <= n)%nat -> 1 <= INR n.
Proof. intros Hn. change 1 with (INR 1). now apply le_INR. Qed.

Lemma INR_gt_1 n : (2 <= n)%nat -> 1 < INR n.
Proof. intros Hn. change 1 with (INR 1). apply lt_INR. lia. Qed.

End Log2.

Section HalsteadProperties.
Context {ts : TypeScript}.
Local Open Scope R_scope.

Lemma vocabulary_le_length sourceText :
  (vocabularyOf sourceText
   <= List.length (operatorTokens sourceText) + List.length (operandTokens sourceText))%nat.
Proof.
  unfold vocabularyOf.
  pose proof (size_lexemes_le (operatorTokens sourceText)).
  pose proof (size_lexemes_le (operandTokens sourceText)).
  lia.
Qed.

Lemma calculateHalsteadVolume_nonneg sourceText : 0 <= calculateHalsteadVolume sourceText.
Proof.
  rewrite calculateHalsteadVolume_stream. cbv zeta.
  destruct (Nat.ltb_spec 0 (vocabularyOf sourceText)) as [Hv|Hv]; [|lra].
  apply Rmult_le_pos; [apply pos_INR|].
  apply Math_log2_nonneg, INR_ge_1. lia.
Qed.

(** C5. The Halstead volume of a text is computed from the scanner's token
    stream with the tokens classified by kind (the arithmetic, equality,
    relational, logical, ternary, increment and decrement, and assignment tokens
    as operators; identifiers, numeric literals, string literals, [true] and
    [false] as operands; the rest ignored): it is the number of operator and
    operand tokens times the base-2 logarithm of the number of unique operator
    lexemes plus the number of unique operand lexemes when that vocabulary is
    positive, and 0 otherwise. It is never negative. *)
Theorem halsteadVolume_formula (sourceText : string) :
  calculateHalsteadVolume sourceText
  = (if (0 <? size (lexemes (operatorTokens sourceText))
              + size (lexemes (operandTokens sourceText)))%nat
     then INR (List.length (operatorTokens sourceText)
               + List.length (operandTokens sourceText))
          * Math_log2 (INR (size (lexemes (operatorTokens sourceText))
                            + size (lexemes (operandTokens sourceText))))
     else 0)
  /\ 0 <= calculateHalsteadVolume sourceText.
Proof.
  split; [|apply calculateHalsteadVolume_nonneg].
  rewrite calculateHalsteadVolume_stream. reflexivity.
Qed.

(** The volume is 0 exactly when the vocabulary is at most 1. *)
Lemma halsteadVolume_zero_vocabulary (sourceText : string) :
  calculateHalsteadVolume sourceText = 0 <-> (vocabularyOf sourceText <= 1)%nat.
Proof.
  rewrite calculateHalsteadVolume_stream. cbv zeta.
  pose proof (vocabulary_le_length sourceText) as Hlen.
  destruct (Nat.ltb_spec 0 (vocabularyOf sourceText)) as [Hv|Hv].
  - split.
    + intros Hzero.
      destruct (le_lt_dec (vocabularyOf sourceText) 1) as [Hle|Hgt]; [exact Hle|].
      exfalso.
      assert (0 < INR (List.length (operatorTokens sourceText)
                       + List.length (operandTokens sourceText)))
        by (apply lt_0_INR; lia).
      assert (0 < Math_log2 (INR (vocabularyOf sourceText)))
        by (apply Math_log2_pos, INR_gt_1; lia).
      apply (Rlt_irrefl 0). rewrite <- Hzero at 2. now apply Rmult_lt_0_compat.
    + intros Hle. replace (vocabularyOf sourceText) with 1%nat by lia.
      change (INR 1) with 1. rewrite Math_log2_1. lra.
  - split; [lia|reflexivity].
Qed.

(** C4, as the code has it. The Halstead volume of a text is 0 exactly when
    the vocabulary is at most 1: when the token stream has no operator and no
    operand token (the vocabulary is 0 exactly then), and also when all its
    operator and operand tokens share one lexeme of one class. *)
Theorem halsteadVolume_zero_iff (sourceText : string) :
  (calculateHalsteadVolume sourceText = 0 <-> (vocabularyOf sourceText <= 1)%nat)
  /\ (vocabularyOf sourceText = 0%nat
      <-> operatorTokens sourceText = [] /\ operandTokens sourceText = []).
Proof.
  split; [apply halsteadVolume_zero_vocabulary|].
  unfold vocabularyOf. rewrite <- !size_lexemes_0. lia.
Qed.

End HalsteadProperties.

(** The volume of [function add(a, b) { return a + b; }]: one operator, five
    operands, four lexemes. *)
Example halsteadVolume_add :
  calculateHalsteadVolume (ts := Sample.typescript) Sample.addText = 12%R.
Proof.
  rewrite calculateHalsteadVolume_stream. cbv zeta.
  assert (Hvoc : vocabularyOf (ts := Sample.typescript) Sample.addText = 4)
    by (vm_compute; reflexivity).
  rewrite Hvoc.
  change (List.length (operatorTokens (ts := Sample.typescript) Sample.addText)
          + List.length (operandTokens (ts := Sample.typescript) Sample.addText)) with 6.
  change (0 <? 4)%nat with true. cbv iota.
  unfold Math_log2. replace (INR 4) with (2 * 2)%R by (simpl; lra).
  rewrite ln_mult by lra. replace (INR 6) with 6%R by (simpl; lra).
  pose proof ln_2_pos. field. lra.
Qed.

(** C4, the claim as stated fails. The text [function f() {}] has an operand
    token, the identifier [f], and its Halstead volume is 0: its vocabulary is
    1, and the logarithm of 1 is 0. *)
Lemma halsteadVolume_zero_with_operand :
  calculateHalsteadVolume (ts := Sample.typescript) Sample.emptyText = 0%R
  /\ operandTokens (ts := Sample.typescript) Sample.emptyText = [ (Identifier, "f") ]
  /\ ~ (calculateHalsteadVolume (ts := Sample.typescript) Sample.emptyText = 0%R
        <-> operatorTokens (ts := Sample.typescript) Sample.emptyText = []
            /\ operandTokens (ts := Sample.typescript) Sample.emptyText = []).
Proof.
  assert (Hzero : calculateHalsteadVolume (ts := Sample.typescript) Sample.emptyText = 0%R).
  { apply (halsteadVolume_zero_vocabulary (ts := Sample.typescript)). vm_compute. lia. }
  split; [exact Hzero|split; [reflexivity|]].
  intros [Hno _]. destruct (Hno Hzero) as [_ Hnd]. discriminate Hnd.
Qed.

(** ** Lines of code and comment density *)

Lemma split_length_pos s sep : 1 <= List.length (split s sep).
Proof.
  induction s as [|c s IH]; simpl; [lia|].
  destruct (Ascii.eqb c sep); simpl; [lia|].
  destruct (split s sep); simpl; lia.
Qed.

(** The loop counts the lines the classifier flags. *)
Lemma commentLoop_counts lines : forall commentLines inBlockComment,
  fst (fold_left commentLineStep lines (commentLines, inBlockComment))
  = commentLines
    + List.length (List.filter (fun flag : bool => flag)
                     (commentLineFlags inBlockComment lines)).
Proof.
  induction lines as [|line lines IH]; intros k b; simpl; [lia|].
  destruct b; simpl.
  - destruct (includes (trim line) "*/"); simpl; rewrite IH; simpl; lia.
  - destruct (startsWith (trim line) "//"); simpl; [rewrite IH; simpl; lia|].
    destruct (startsWith (trim line) "/*"); simpl; [|rewrite IH; simpl; lia].
    destruct (includes (trim line) "*/"); simpl; rewrite IH; simpl; lia.
Qed.

Lemma commentLineFlags_length lines : forall inBlockComment,
  List.length (commentLineFlags inBlockComment lines) = List.length lines.
Proof.
  induction lines as [|line lines IH]; intros b; simpl; [reflexivity|].
  destruct b; [|destruct (startsWith (trim line) "//"); [|destruct (startsWith (trim line) "/*")]];
    simpl; now rewrite IH.
Qed.

Lemma countCommentLines_le lines : countCommentLines lines <= List.length lines.
Proof.
  unfold countCommentLines.
  rewrite <- (commentLineFlags_length lines false). apply List.filter_length_le.
Qed.

Section CommentDensity.
Local Open Scope R_scope.

Lemma commentDensityOfLines_ratio lines :
  commentDensityOfLines lines
  = if (0 <? List.length lines)%nat
    then INR (countCommentLines lines) / INR (List.length lines)
    else 0.
Proof.
  unfold commentDensityOfLines, countCommentLines.
  pose proof (commentLoop_counts lines 0 false) as Hcount.
  destruct (fold_left commentLineStep lines (0%nat, false)) as [k b].
  simpl in Hcount. now rewrite Hcount.
Qed.

Lemma commentDensityOfLines_range lines : 0 <= commentDensityOfLines lines <= 1.
Proof.
  rewrite commentDensityOfLines_ratio.
  destruct (Nat.ltb_spec 0 (List.length lines)) as [Hpos|Hzero]; [|lra].
  pose proof (lt_0_INR _ Hpos) as Hlen.
  pose proof (pos_INR (countCommentLines lines)) as Hk.
  pose proof (le_INR _ _ (countCommentLines_le lines)) as Hle.
  split.
  - apply Rmult_le_pos; [exact Hk|]. left. now apply Rinv_0_lt_compat.
  - apply (Rmult_le_reg_r (INR (List.length lines))); [exact Hlen|].
    unfold Rdiv. rewrite Rmult_assoc, Rinv_l by lra. lra.
Qed.

(** C6. The comment density of a file text is the number of lines the
    single-pass [inBlockComment] classifier flags as comment lines divided by
    the number of lines; it lies between 0 and 1; on no line at all the guard
    of the division answers 0; and the density of the empty text is 0 (a text
    always has at least one line, the empty text has one empty line). *)
Theorem commentDensity_in_unit_interval (fileText : string) :
  calculateCommentDensity fileText
  = INR (countCommentLines (split fileText newline))
    / INR (List.length (split fileText newline))
  /\ 0 <= calculateCommentDensity fileText <= 1
  /\ (forall lines, 0 <= commentDensityOfLines lines <= 1)
  /\ commentDensityOfLines [] = 0
  /\ calculateCommentDensity "" = 0
  /\ (1 <= List.length (split fileText newline))%nat.
Proof.
  unfold calculateCommentDensity. cbv zeta.
  split; [|split; [|split; [|split; [|split; [|apply split_length_pos]]]]].
  - rewrite commentDensityOfLines_ratio.
    pose proof (split_length_pos fileText newline) as Hpos.
    destruct (Nat.ltb_spec 0 (List.length (split fileText newline))); [reflexivity|lia].
  - apply commentDensityOfLines_range.
  - apply commentDensityOfLines_range.
  - rewrite commentDensityOfLines_ratio. reflexivity.
  - rewrite commentDensityOfLines_ratio. simpl. lra.
Qed.

(** A file of line comments only has density 1. *)
Example commentDensity_all_comments :
  calculateCommentDensity ("// one" ++ String newline ("  // two" ++ String newline "//")) = 1.
Proof.
  unfold calculateCommentDensity. cbv zeta. rewrite commentDensityOfLines_ratio.
  vm_compute countCommentLines. simpl. lra.
Qed.

(** A block comment that spans lines counts every line up to its end. *)
Example countCommentLines_block :
  countCommentLines [ "/* a"; " b"; " c */ x"; "y"; "/* d */"; "z // e" ] = 4%nat.
Proof. reflexivity. Qed.

End CommentDensity.

(** ** Maintainability index *)

Section MaintainabilityProperties.
Local Open Scope R_scope.

Lemma safeValue_guard x : (if isPositive x then x else 1) = safeValue x.
Proof.
  unfold isPositive, safeValue.
  destruct (Rlt_dec 0 x), (Rle_dec x 0); try reflexivity; lra.
Qed.

Lemma commentBonus_0 cd : commentBonus cd 0 = 0.
Proof. unfold commentBonus. apply Rmult_0_l. Qed.

(** C1. The maintainability index is the maximum of 0 and the base index
    [(171 - 5.2 ln safeV - 0.23 cc - 16.2 ln safeLOC) * 100 / 171] plus the
    bonus [m sin (sqrt (2.4 cd))], where 1 stands in for a volume or a line
    count that is not above 0. It is never negative, and with the multiplier 0
    the bonus is 0 and the index is the same for every comment density. *)
Theorem maintainabilityIndex_formula (cc v loc cd m : R) :
  calculateMaintainabilityIndex cc v loc cd m
  = Rmax 0 ((171 - 5.2 * ln (safeValue v) - 0.23 * cc - 16.2 * ln (safeValue loc))
            * 100 / 171
            + m * sin (sqrt (2.4 * cd)))
  /\ calculateMaintainabilityIndex cc v loc cd m = maintainabilityFormula cc v loc cd m
  /\ 0 <= calculateMaintainabilityIndex cc v loc cd m
  /\ commentBonus cd 0 = 0
  /\ (forall cd', calculateMaintainabilityIndex cc v loc cd 0
                  = calculateMaintainabilityIndex cc v loc cd' 0).
Proof.
  unfold calculateMaintainabilityIndex, maintainabilityFormula. cbv zeta.
  rewrite !safeValue_guard.
  split; [reflexivity|split; [reflexivity|split; [apply Rmax_l|split]]].
  - apply commentBonus_0.
  - intros cd'. now rewrite !commentBonus_0.
Qed.

(** The guards: a volume of 0 (an empty vocabulary) and a positive volume. *)
Example safeValue_cases : safeValue 0 = 1 /\ safeValue (-3) = 1 /\ safeValue 12 = 12.
Proof.
  unfold safeValue.
  repeat split; match goal with |- context [Rle_dec ?a ?b] => destruct (Rle_dec a b) end;
    try reflexivity; lra.
Qed.

End MaintainabilityProperties.

(** ** The file analyzer *)

Section FileAnalyzerProperties.
Context {ts : TypeScript}.

Lemma omap_flat_map {A B C : Type} (f : B -> option C) (g : A -> list B) (l : list A) :
  omap f (flat_map g l) = flat_map (fun a => omap f (g a)) l.
Proof.
  induction l as [|a l IH]; simpl; [reflexivity|].
  now rewrite omap_app, IH.
Qed.

Lemma recordsOf_node cd m n :
  recordsOf cd m n
  = option_list (declarationRecord cd m n) ++ flat_map (recordsOf cd m) (children n).
Proof.
  unfold recordsOf. destruct n as [k op nm b t cs]. simpl preorder. simpl children.
  rewrite <- omap_flat_map. cbn [omap list_omap].
  destruct (declarationRecord cd m (mkNode k op nm b t cs)); reflexivity.
Qed.

(** One call of [traverse] on a node, before it goes to the children: it
    pushes the record of the node, if the node gets one. *)
Lemma traverse_node cd m n rs :
  traverse cd m n rs
  = forEachChild n (traverse cd m) (rs ++ option_list (declarationRecord cd m n)).
Proof.
  destruct n as [k op nm b t cs].
  change (traverse cd m (mkNode k op nm b t cs) rs)
    with (forEachChild (mkNode k op nm b t cs) (traverse cd m)
            match k with
            | FunctionDeclaration | MethodDeclaration =>
                match b with
                | Some bd =>
                    rs ++ [ {| methodName := match nm with Some x => x | None => "<anonymous>" end;
                               cyclomatic := calculateCyclomaticComplexity bd;
                               halsteadVolume := calculateHalsteadVolume t;
                               loc := calculateLOC t;
                               maintainabilityIndex :=
                                 calculateMaintainabilityIndex
                                   (INR (calculateCyclomaticComplexity bd))
                                   (calculateHalsteadVolume t) (INR (calculateLOC t)) cd m |} ]
                | None => rs
                end
            | _ => rs
            end).
  f_equal. unfold declarationRecord, isFunctionOrMethod. simpl.
  destruct k; try (symmetry; apply app_nil_r);
    destruct b, nm; simpl; try reflexivity; symmetry; apply app_nil_r.
Qed.

(** [traverse] appends to [results] the records of the subtree, in pre-order. *)
Lemma traverse_appends cd m n : forall rs, traverse cd m n rs = rs ++ recordsOf cd m n.
Proof.
  induction n as [n IH] using Node_children_ind. intros rs.
  rewrite traverse_node, (forEachChild_append _ (recordsOf cd m) n IH), recordsOf_node.
  now rewrite app_assoc.
Qed.

(** When the file is read and parsed, the analysis returns the records of the
    whole tree and the comment density of the file text. *)
Lemma analyzeMethods_returns w filePath m sourceCode sourceFile :
  readSourceFile w filePath = Return sourceCode ->
  createSourceFile filePath sourceCode = Return sourceFile ->
  analyzeMethods w filePath m
  = Return {| results := recordsOf (calculateCommentDensity sourceCode) (default 5%R m) sourceFile;
              commentDensity := calculateCommentDensity sourceCode |}.
Proof.
  intros Hread Hparse. unfold analyzeMethods. rewrite Hread. cbn. rewrite Hparse. cbn.
  now rewrite traverse_appends.
Qed.

Lemma analyzeMethods_read_throws w filePath m e :
  readSourceFile w filePath = Throw e -> analyzeMethods w filePath m = Throw e.
Proof. intros Hread. unfold analyzeMethods. now rewrite Hread. Qed.

Lemma analyzeMethods_parse_throws w filePath m sourceCode e :
  readSourceFile w filePath = Return sourceCode ->
  createSourceFile filePath sourceCode = Throw e ->
  analyzeMethods w filePath m = Throw e.
Proof.
  intros Hread Hparse. unfold analyzeMethods. rewrite Hread. cbn. now rewrite Hparse.
Qed.

Lemma declarationRecord_is_Some cd m n :
  is_Some (declarationRecord cd m n) <-> isAnalyzedDeclaration n = true.
Proof.
  unfold declarationRecord, isAnalyzedDeclaration, hasBody.
  destruct (isFunctionOrMethod n), (body n); simpl; split;
    intros Hs; try reflexivity; try discriminate; try (eexists; reflexivity);
    destruct Hs; discriminate.
Qed.

Lemma omap_length_filter {A B : Type} (f : A -> option B) (p : A -> bool) (l : list A) :
  (forall a, is_Some (f a) <-> p a = true) ->
  List.length (omap f l) = List.length (List.filter p l).
Proof.
  intros Hfp. induction l as [|a l IH]; simpl; [reflexivity|].
  specialize (Hfp a). change (omap f l) with (list_omap A B f l) in IH.
  destruct (f a) as [b|], (p a); simpl; try now rewrite IH.
  - assert (false = true) by (apply Hfp; eauto). discriminate.
  - assert (is_Some (@None B)) as [? ?] by now apply Hfp. discriminate.
Qed.


Lemma recordsOf_names cd m root :
  map methodName (recordsOf cd m root)
  = map (fun n => default "<anonymous>" (name n))
      (List.filter isAnalyzedDeclaration (preorder root)).
Proof.
  unfold recordsOf. induction (preorder root) as [|n l IH]; [reflexivity|].
  cbn [omap list_omap List.filter]. change (list_omap _ _ ?f l) with (omap f l).
  unfold declarationRecord at 1, isAnalyzedDeclaration at 1, hasBody.
  destruct (isFunctionOrMethod n), (body n); simpl; now rewrite ?IH.
Qed.

Lemma In_omap {A B : Type} (f : A -> option B) (l : list A) (y : B) :
  In y (omap f l) <-> exists x, In x l /\ f x = Some y.
Proof.
  induction l as [|a l IH]; cbn [omap list_omap].
  - split; [intros []|intros [x [[] _]]].
  - change (list_omap A B f l) with (omap f l).
    destruct (f a) as [b|] eqn:Hfa; cbn [In]; rewrite IH; split.
    + intros [<-|[x [Hx Hfx]]]; [exists a; auto|exists x; auto].
    + intros [x [[<-|Hx] Hfx]]; [left; congruence|right; exists x; auto].
    + intros [x [Hx Hfx]]. exists x; auto.
    + intros [x [[<-|Hx] Hfx]]; [congruence|exists x; auto].
Qed.

(** The nodes of the subtree of a child are nodes of the subtree of the node,
    whatever the kind of the node: the nodes inside a function are nodes of the
    file. *)
Lemma preorder_child n c d :
  In c (children n) -> In d (preorder c) -> In d (preorder n).
Proof.
  intros Hc Hd. destruct n as [k op nm b t cs]; simpl in *. right.
  apply in_flat_map. exists c; auto.
Qed.

Lemma preorder_trans root : forall n d,
  In n (preorder root) -> In d (preorder n) -> In d (preorder root).
Proof.
  induction root as [root IH] using Node_children_ind. intros n d Hn Hd.
  destruct root as [k op nm b t cs]. simpl in Hn. destruct Hn as [<-|Hn]; [exact Hd|].
  simpl. right. apply in_flat_map in Hn. destruct Hn as [child [Hchild Hn]].
  apply in_flat_map. exists child. split; [exact Hchild|].
  simpl in IH. rewrite List.Forall_forall in IH. now apply (IH child Hchild) with n.
Qed.

(** C7. When the file is read and parsed, the analysis returns one record for
    each node of the whole-file tree that is a function declaration or a
    method declaration and has a body, in pre-order; the nodes inside function
    bodies are nodes of the tree like the others, so a nested function has a
    record of its own. A declaration without a body has no record, and the
    record of a declaration without a name is named ["<anonymous>"]. *)
Theorem analyzeMethods_one_record_per_declaration
    (w : World) (filePath : string) (m : option R) (sourceCode : string) (sourceFile : Node) :
  readSourceFile w filePath = Return sourceCode ->
  createSourceFile filePath sourceCode = Return sourceFile ->
  exists analysis,
    analyzeMethods w filePath m = Return analysis
    /\ results analysis
       = omap (declarationRecord (calculateCommentDensity sourceCode) (default 5%R m))
           (preorder sourceFile)
    /\ (forall n,
          is_Some (declarationRecord (calculateCommentDensity sourceCode) (default 5%R m) n)
          <-> isAnalyzedDeclaration n = true)
    /\ List.length (results analysis)
       = List.length (List.filter isAnalyzedDeclaration (preorder sourceFile))
    /\ map methodName (results analysis)
       = map (fun n => default "<anonymous>" (name n))
           (List.filter isAnalyzedDeclaration (preorder sourceFile))
    /\ (forall n c d,
          In n (preorder sourceFile) -> In c (children n) -> In d (preorder c) ->
          isAnalyzedDeclaration d = true ->
          exists r,
            declarationRecord (calculateCommentDensity sourceCode) (default 5%R m) d = Some r
            /\ In r (results analysis)).
Proof.
  intros Hread Hparse. eexists.
  split; [exact (analyzeMethods_returns w filePath m _ _ Hread Hparse)|]. cbn [results].
  split; [reflexivity|]. split; [apply declarationRecord_is_Some|]. split; [|split].
  - apply omap_length_filter, declarationRecord_is_Some.
  - apply recordsOf_names.
  - intros n c d Hn Hc Hd Hdecl.
    apply declarationRecord_is_Some
      with (cd := calculateCommentDensity sourceCode) (m := default 5%R m) in Hdecl.
    destruct Hdecl as [r Hr]. exists r. split; [exact Hr|].
    apply In_omap. exists d. split; [|exact Hr].
    apply preorder_trans with n; [exact Hn|]. now apply preorder_child with c.
Qed.


(** C10. An analysis called without a multiplier is the analysis with the
    multiplier 5. *)
Theorem analyzeMethods_default_multiplier (w : World) (filePath : string) :
  analyzeMethods w filePath None = analyzeMethods w filePath (Some 5%R).
Proof.
  unfold analyzeMethods.
  change (default 5%R None) with 5%R. change (default 5%R (Some 5%R)) with 5%R.
  reflexivity.
Qed.

(** X1. The invariants of the data model. Every record of a returned analysis has
    a cyclomatic complexity of at least 1, a Halstead volume that is not
    negative, at least one line of code and a maintainability index that is not
    negative; the comment density of the analysis lies between 0 and 1. *)
Theorem analyzeMethods_record_invariants
    (w : World) (filePath : string) (m : option R) (analysis : Analysis) (r : MetricRecord) :
  analyzeMethods w filePath m = Return analysis ->
  In r (results analysis) ->
  1 <= cyclomatic r
  /\ (0 <= halsteadVolume r)%R
  /\ 1 <= loc r
  /\ (0 <= maintainabilityIndex r)%R
  /\ (0 <= commentDensity analysis <= 1)%R.
Proof.
  intros Hreturn Hin.
  destruct (readSourceFile w filePath) as [sourceCode|e] eqn:Hread;
    [|rewrite (analyzeMethods_read_throws _ _ _ _ Hread) in Hreturn; discriminate].
  destruct (createSourceFile filePath sourceCode) as [sourceFile|e] eqn:Hparse;
    [|rewrite (analyzeMethods_parse_throws _ _ _ _ _ Hread Hparse) in Hreturn; discriminate].
  rewrite (analyzeMethods_returns _ _ _ _ _ Hread Hparse) in Hreturn.
  injection Hreturn as <-. cbn [results commentDensity] in *.
  apply In_omap in Hin. destruct Hin as [d [_ Hrecord]].
  unfold declarationRecord in Hrecord.
  destruct (isFunctionOrMethod d); [|discriminate].
  destruct (body d) as [b|]; [|discriminate].
  injection Hrecord as <-. cbn [cyclomatic halsteadVolume loc maintainabilityIndex].
  split; [|split; [|split; [|split]]].
  - unfold calculateCyclomaticComplexity. rewrite visit_count. lia.
  - apply calculateHalsteadVolume_nonneg.
  - apply split_length_pos.
  - apply Rmax_l.
  - apply commentDensityOfLines_range.
Qed.

End FileAnalyzerProperties.

(** ** The analyzer on the sample files *)

Section SampleRuns.
Import Sample.

(** [nested.ts]: the unnamed outer function, then the function nested in it;
    nothing for the signature. *)
Lemma analyzeMethods_one_record_per_declaration_nested :
  readSourceFile world "/src/nested.ts" = Return nestedSource
  /\ createSourceFile "/src/nested.ts" nestedSource = Return nestedFile
  /\ exists analysis,
       analyzeMethods world "/src/nested.ts" None = Return analysis
       /\ List.length (results analysis) = 2
       /\ map methodName (results analysis) = [ "<anonymous>"; "inner" ].
Proof.
  assert (Hread : readSourceFile world "/src/nested.ts" = Return nestedSource)
    by reflexivity.
  assert (Hparse : createSourceFile "/src/nested.ts" nestedSource = Return nestedFile)
    by reflexivity.
  split; [exact Hread|split; [exact Hparse|]].
  destruct (analyzeMethods_one_record_per_declaration
              world "/src/nested.ts" None nestedSource nestedFile Hread Hparse)
    as [analysis [Hreturn [_ [_ [Hlength [Hnames _]]]]]].
  exists analysis. split; [exact Hreturn|split; [exact Hlength|exact Hnames]].
Defined.

Example analyzeMethods_nested_names :
  exists analysis,
    analyzeMethods world "/src/nested.ts" None = Return analysis
    /\ map methodName (results analysis) = [ "<anonymous>"; "inner" ]
    /\ map cyclomatic (results analysis) = [ 2; 2 ]
    /\ map loc (results analysis) = [ 4; 1 ].
Proof.
  eexists. split.
  - apply (analyzeMethods_returns world "/src/nested.ts" None nestedSource nestedFile);
      reflexivity.
  - repeat split; reflexivity.
Qed.

(** [constant.ts] has no function: no record, no exception. [missing.ts] is
    not there: the exception of the read. *)
Example analyzeMethods_no_function :
  exists cd, analyzeMethods world "/src/constant.ts" None
             = Return {| results := []; commentDensity := cd |}.
Proof.
  eexists.
  rewrite (analyzeMethods_returns world "/src/constant.ts" None constantSource constantFile)
    by reflexivity.
  reflexivity.
Qed.

Example analyzeMethods_missing_file :
  analyzeMethods world "/src/missing.ts" None
  = Throw (Error "ENOENT: no such file or directory, open '/src/missing.ts'").
Proof. reflexivity. Qed.


(** Two disjunctions of different operands: one kind, one operator, one
    answer. *)
Lemma isDecisionPoint_classifier_disjunctions :
  kind (mkNode BinaryExpression (Some BarBarToken) None None "a || b"
          [ leaf Identifier "a"; leaf BarBarToken "||"; leaf Identifier "b" ])
  = kind (mkNode BinaryExpression (Some BarBarToken) None None "c || 0"
            [ leaf Identifier "c"; leaf BarBarToken "||"; leaf NumericLiteral "0" ])
  /\ isDecisionPoint
       (mkNode BinaryExpression (Some BarBarToken) None None "a || b"
          [ leaf Identifier "a"; leaf BarBarToken "||"; leaf Identifier "b" ])
     = isDecisionPoint
         (mkNode BinaryExpression (Some BarBarToken) None None "c || 0"
            [ leaf Identifier "c"; leaf BarBarToken "||"; leaf NumericLiteral "0" ]).
Proof.
  split; [reflexivity|].
  apply (proj2 (proj2 isDecisionPoint_classifier)); [reflexivity|].
  intros _. reflexivity.
Defined.



(** The record of [add] in [add.ts]. *)
Lemma analyzeMethods_record_invariants_add :
  exists analysis r,
    analyzeMethods world "/src/add.ts" None = Return analysis
    /\ In r (results analysis)
    /\ methodName r = "add"
    /\ 1 <= cyclomatic r
    /\ (0 <= halsteadVolume r)%R
    /\ 1 <= loc r
    /\ (0 <= maintainabilityIndex r)%R
    /\ (0 <= commentDensity analysis <= 1)%R.
Proof.
  assert (Hreturn : analyzeMethods world "/src/add.ts" None
                    = Return {| results := recordsOf (calculateCommentDensity addSource)
                                             5%R addFile;
                                commentDensity := calculateCommentDensity addSource |})
    by (apply (analyzeMethods_returns world "/src/add.ts" None addSource addFile);
        reflexivity).
  destruct (declarationRecord (calculateCommentDensity addSource) 5%R addDeclaration)
    as [r|] eqn:Hrecord; [|discriminate Hrecord].
  assert (Hin : In r (recordsOf (calculateCommentDensity addSource) 5%R addFile)).
  { apply In_omap. exists addDeclaration. split; [|exact Hrecord]. simpl. auto. }
  eexists. exists r. split; [exact Hreturn|]. split; [exact Hin|]. split.
  - injection Hrecord as <-. reflexivity.
  - exact (analyzeMethods_record_invariants world "/src/add.ts" None _ r Hreturn Hin).
Defined.

End SampleRuns.

(** * More properties of the code *)

(** ** Lines of code *)

Lemma split_length_line_feeds s :
  List.length (split s newline) = S (countLineFeeds s).
Proof.
  induction s as [|c s IH]; simpl; [reflexivity|].
  destruct (Ascii.eqb c newline); simpl; [now rewrite IH|].
  destruct (split s newline) as [|seg segs]; simpl in *; lia.
Qed.

Lemma countLineFeeds_app s1 s2 :
  countLineFeeds (s1 ++ s2) = countLineFeeds s1 + countLineFeeds s2.
Proof. induction s1 as [|c s1 IH]; simpl; [reflexivity|]. rewrite IH. lia. Qed.

(** X2. The lines of code of a text are its line feeds plus one: a text
    without a line feed (the empty text too) has one line, a final line feed
    opens one more line, and the lines of two texts joined by a line feed add
    up. *)
Theorem calculateLOC_counts_line_feeds (s1 s2 : string) :
  calculateLOC s1 = S (countLineFeeds s1)
  /\ calculateLOC (s1 ++ String newline EmptyString) = S (calculateLOC s1)
  /\ calculateLOC (s1 ++ String newline s2) = calculateLOC s1 + calculateLOC s2
  /\ calculateLOC (s1 ++ s2) + 1 = calculateLOC s1 + calculateLOC s2.
Proof.
  unfold calculateLOC. rewrite !split_length_line_feeds, !countLineFeeds_app.
  simpl. repeat split; lia.
Qed.

(** ** Comment density *)

Lemma trimEnd_blank ws : isBlank ws = true -> trimEnd ws = EmptyString.
Proof.
  induction ws as [|c ws IH]; simpl; [reflexivity|].
  intros Hws. apply andb_prop in Hws as [Hc Hws]. now rewrite IH, Hc.
Qed.

Lemma trimStart_blank_app ws s : isBlank ws = true -> trimStart (ws ++ s) = trimStart s.
Proof.
  induction ws as [|c ws IH]; simpl; [reflexivity|].
  intros Hws. apply andb_prop in Hws as [Hc Hws]. now rewrite Hc, IH.
Qed.

Lemma trimEnd_app_blank s ws : isBlank ws = true -> trimEnd (s ++ ws) = trimEnd s.
Proof.
  intros Hws. induction s as [|c s IH]; simpl; [now apply trimEnd_blank|].
  now rewrite IH.
Qed.

Lemma trimStart_blank ws : isBlank ws = true -> trimStart ws = EmptyString.
Proof.
  induction ws as [|c ws IH]; simpl; [reflexivity|].
  intros Hws. apply andb_prop in Hws as [Hc Hws]. now rewrite Hc, IH.
Qed.

Lemma trim_app_blank s ws : isBlank ws = true -> trim (s ++ ws) = trim s.
Proof.
  intros Hws. unfold trim. induction s as [|c s IH]; simpl.
  - now rewrite trimStart_blank.
  - destruct (isWhiteSpace c); [exact IH|].
    change (String c (s ++ ws)%string) with (String c s ++ ws)%string.
    now apply trimEnd_app_blank.
Qed.

Lemma trim_padded ws1 s ws2 :
  isBlank ws1 = true -> isBlank ws2 = true -> trim (ws1 ++ s ++ ws2) = trim s.
Proof.
  intros H1 H2. unfold trim at 1. rewrite trimStart_blank_app by exact H1.
  now apply trim_app_blank.
Qed.

Lemma trimEnd_keeps_start c s :
  isWhiteSpace c = false -> trimEnd (String c s) = String c (trimEnd s).
Proof. intros Hc. simpl. rewrite Hc. now destruct (trimEnd s). Qed.

(** A line of optional white space and then [//] is trimmed to a string that
    starts with [//]. *)
Lemma trim_line_comment ws rest :
  isBlank ws = true -> startsWith (trim (ws ++ "//" ++ rest)) "//" = true.
Proof.
  intros Hws. unfold trim. rewrite trimStart_blank_app by exact Hws.
  change (trimStart ("//" ++ rest)) with (String "/" (String "/" rest)).
  rewrite !trimEnd_keeps_start by reflexivity.
  unfold startsWith. simpl. now destruct (trimEnd rest).
Qed.

Lemma prefix_cons a s1 b s2 :
  String.prefix (String a s1) (String b s2)
  = if ascii_dec a b then String.prefix s1 s2 else false.
Proof. reflexivity. Qed.

Lemma startsWith_block_not_line s :
  startsWith s "/*" = true -> startsWith s "//" = false.
Proof.
  unfold startsWith. destruct s as [|c1 [|c2 s]]; [reflexivity| |].
  - rewrite !prefix_cons. destruct (ascii_dec "/" c1); reflexivity.
  - rewrite !prefix_cons. destruct (ascii_dec "/" c1); [|reflexivity].
    destruct (ascii_dec "*" c2) as [<-|]; [|discriminate].
    intros _. destruct (ascii_dec "/" "*") as [Heq|]; [discriminate Heq|reflexivity].
Qed.

(** The step of the loop reads a line through [trim] only. *)
Lemma commentLineStep_trim st l l' :
  trim l' = trim l -> commentLineStep st l' = commentLineStep st l.
Proof. intros Htrim. unfold commentLineStep. now rewrite Htrim. Qed.

(** The flags of two runs of lines: the second run starts with the flag the
    loop has after the first. *)
Lemma commentLineFlags_app l1 : forall l2 k b,
  commentLineFlags b (l1 ++ l2)
  = commentLineFlags b l1
    ++ commentLineFlags (snd (fold_left commentLineStep l1 (k, b))) l2.
Proof.
  induction l1 as [|line l1 IH]; intros l2 k b; [reflexivity|]. simpl.
  destruct b; simpl.
  - destruct (includes (trim line) "*/"); simpl; f_equal; apply IH.
  - destruct (startsWith (trim line) "//"); simpl; [f_equal; apply IH|].
    destruct (startsWith (trim line) "/*"); simpl; [|f_equal; apply IH].
    destruct (includes (trim line) "*/"); simpl; f_equal; apply IH.
Qed.

Lemma countCommentLines_app l1 l2 :
  countCommentLines (l1 ++ l2)
  = countCommentLines l1
    + List.length (List.filter (fun flag : bool => flag)
                     (commentLineFlags (inBlockCommentAfter l1) l2)).
Proof.
  unfold countCommentLines, inBlockCommentAfter.
  now rewrite (commentLineFlags_app l1 l2 0 false), List.filter_app, List.length_app.
Qed.

Lemma commentLineFlags_line_comments lines :
  Forall (fun l => startsWith (trim l) "//" = true) lines ->
  commentLineFlags false lines = repeat true (List.length lines).
Proof.
  induction 1 as [|l lines Hl _ IH]; simpl; [reflexivity|]. now rewrite Hl, IH.
Qed.

Lemma commentLineFlags_no_marker lines :
  Forall (fun l => startsWith (trim l) "//" = false /\ startsWith (trim l) "/*" = false)
    lines ->
  commentLineFlags false lines = repeat false (List.length lines).
Proof.
  induction 1 as [|l lines [Hline Hblock] _ IH]; simpl; [reflexivity|].
  now rewrite Hline, Hblock, IH.
Qed.

Lemma commentLineFlags_inside_block lines :
  Forall (fun l => includes (trim l) "*/" = false) lines ->
  commentLineFlags true lines = repeat true (List.length lines).
Proof.
  induction 1 as [|l lines Hl _ IH]; simpl; [reflexivity|].
  rewrite Hl. simpl. now rewrite IH.
Qed.

Lemma filter_repeat_true n :
  List.filter (fun flag : bool => flag) (repeat true n) = repeat true n.
Proof. induction n as [|n IH]; simpl; [reflexivity|]. now rewrite IH. Qed.

Lemma filter_repeat_false n :
  List.filter (fun flag : bool => flag) (repeat false n) = [].
Proof. induction n as [|n IH]; simpl; [reflexivity|]. exact IH. Qed.

Lemma commentLoop_padding lines lines' :
  Forall2 (fun l l' => trim l' = trim l) lines lines' ->
  forall st, fold_left commentLineStep lines' st = fold_left commentLineStep lines st.
Proof.
  induction 1 as [|l l' lines lines' Hl _ IH]; intros st; simpl; [reflexivity|].
  now rewrite (commentLineStep_trim st l l' Hl), IH.
Qed.

Section CommentDensityOfFiles.
Local Open Scope R_scope.

(** X3. The comment density does not see the white space around the lines:
    two texts whose lines differ by leading and trailing white space only
    (indentation, trailing blanks, a carriage return before the line feed)
    have the same comment density. *)
Theorem commentDensity_ignores_padding (fileText fileText' : string) :
  Forall2 (fun l l' => exists ws1 ws2,
               isBlank ws1 = true /\ isBlank ws2 = true /\ l' = (ws1 ++ l ++ ws2)%string)
    (split fileText newline) (split fileText' newline) ->
  calculateCommentDensity fileText' = calculateCommentDensity fileText.
Proof.
  intros Hpad. unfold calculateCommentDensity, commentDensityOfLines. cbv zeta.
  rewrite <- (Forall2_length _ _ _ Hpad).
  rewrite (commentLoop_padding (split fileText newline) (split fileText' newline));
    [reflexivity|].
  eapply Forall2_impl; [exact Hpad|].
  intros l l' [ws1 [ws2 [H1 [H2 ->]]]]. now apply trim_padded.
Qed.

(** X4. A text whose every line is optional white space and then [//] has the
    comment density 1. With a line feed after the last of the [n] lines the
    text has one more, empty, line, and the density is [n / (n + 1)]. *)
Theorem commentDensity_line_comments (lines : list string) :
  lines <> [] ->
  Forall (fun l => exists ws rest, isBlank ws = true /\ l = (ws ++ "//" ++ rest)%string)
    lines ->
  (forall fileText,
      split fileText newline = lines -> calculateCommentDensity fileText = 1)
  /\ (forall fileText,
        split fileText newline = lines ++ [EmptyString] ->
        calculateCommentDensity fileText
        = INR (List.length lines) / INR (S (List.length lines))).
Proof.
  intros Hne Hall.
  assert (Hflags : commentLineFlags false lines = repeat true (List.length lines)).
  { apply commentLineFlags_line_comments.
    eapply Forall_impl; [exact Hall|].
    intros l [ws [rest [Hws ->]]]. now apply trim_line_comment. }
  assert (Hcount : countCommentLines lines = List.length lines).
  { unfold countCommentLines. now rewrite Hflags, filter_repeat_true, repeat_length. }
  assert (Hpos : (0 < List.length lines)%nat) by (destruct lines; [congruence|simpl; lia]).
  split; intros fileText Hsplit; unfold calculateCommentDensity; cbv zeta;
    rewrite Hsplit, commentDensityOfLines_ratio.
  - destruct (Nat.ltb_spec 0 (List.length lines)); [|lia].
    rewrite Hcount. apply Rdiv_diag. apply not_0_INR. lia.
  - rewrite List.length_app. simpl List.length.
    replace (List.length lines + 1)%nat with (S (List.length lines)) by lia.
    change (0 <? S (List.length lines))%nat with true. cbv iota.
    rewrite countCommentLines_app.
    assert (Hafter : inBlockCommentAfter lines = false).
    { unfold inBlockCommentAfter. clear Hflags Hcount Hpos Hne Hsplit.
      assert (Hgen : forall k, snd (fold_left commentLineStep lines (k, false)) = false).
      { induction Hall as [|l ls [ws [rest [Hws ->]]] _ IH]; intros k; [reflexivity|].
        simpl. rewrite trim_line_comment by exact Hws. apply IH. }
      apply Hgen. }
    rewrite Hafter, Hcount. simpl. now rewrite Nat.add_0_r.
Qed.

(** X5. A text with no line that starts, after the white space, with [//] or
    with the opening of a block comment has the comment density 0: a comment
    after code on its line is not counted. *)
Theorem commentDensity_no_marker (fileText : string) :
  Forall (fun l => startsWith (trim l) "//" = false /\ startsWith (trim l) "/*" = false)
    (split fileText newline) ->
  calculateCommentDensity fileText = 0.
Proof.
  intros Hnone. unfold calculateCommentDensity. cbv zeta.
  rewrite commentDensityOfLines_ratio.
  destruct (Nat.ltb_spec 0 (List.length (split fileText newline))); [|reflexivity].
  unfold countCommentLines.
  rewrite (commentLineFlags_no_marker _ Hnone), filter_repeat_false. simpl. lra.
Qed.

(** X6. A block comment that is not closed takes the rest of the text: when a
    line opens a block comment outside of one, and neither this line nor a
    later one holds the closing of a block comment, this line and all the lines
    after it count as comment lines. *)
Theorem commentDensity_unterminated_block
    (before : list string) (opening : string) (rest : list string) :
  inBlockCommentAfter before = false ->
  startsWith (trim opening) "/*" = true ->
  Forall (fun l => includes (trim l) "*/" = false) (opening :: rest) ->
  countCommentLines (before ++ opening :: rest)
  = (countCommentLines before + S (List.length rest))%nat
  /\ (forall fileText,
        split fileText newline = before ++ opening :: rest ->
        calculateCommentDensity fileText
        = INR (countCommentLines before + S (List.length rest))
          / INR (List.length before + S (List.length rest))).
Proof.
  intros Hbefore Hopen Hclosed.
  assert (Hcount : countCommentLines (before ++ opening :: rest)
                   = (countCommentLines before + S (List.length rest))%nat).
  { rewrite countCommentLines_app, Hbefore. simpl.
    rewrite (startsWith_block_not_line _ Hopen), Hopen.
    inversion Hclosed as [|? ? Hline Hrest]; subst. rewrite Hline. simpl.
    now rewrite (commentLineFlags_inside_block _ Hrest), filter_repeat_true, repeat_length. }
  split; [exact Hcount|].
  intros fileText Hsplit. unfold calculateCommentDensity. cbv zeta.
  rewrite Hsplit, commentDensityOfLines_ratio, Hcount, List.length_app. simpl List.length.
  destruct (Nat.ltb_spec 0 (List.length before + S (List.length rest))); [reflexivity|lia].
Qed.

End CommentDensityOfFiles.

(** ** Halstead volume: what it depends on, and its range *)

Section HalsteadRange.
Context {ts : TypeScript}.
Local Open Scope R_scope.

Lemma filter_Permutation_bool {A : Type} (p : A -> bool) (l l' : list A) :
  Permutation l l' -> Permutation (List.filter p l) (List.filter p l').
Proof.
  induction 1 as [|x l l' _ IH|x y l|l l' l'' _ IH1 _ IH2]; simpl.
  - constructor.
  - destruct (p x); [now constructor|exact IH].
  - destruct (p x), (p y); try reflexivity. constructor.
  - now transitivity (List.filter p l').
Qed.

Lemma filter_filter_bool {A : Type} (p q : A -> bool) (l : list A) :
  (forall a, p a = true -> q a = true) ->
  List.filter p (List.filter q l) = List.filter p l.
Proof.
  intros Hpq. induction l as [|a l IH]; simpl; [reflexivity|].
  destruct (q a) eqn:Hq; simpl.
  - now rewrite IH.
  - destruct (p a) eqn:Hp; [|exact IH]. rewrite (Hpq a Hp) in Hq. discriminate.
Qed.

Lemma operatorTokens_counted sourceText :
  operatorTokens sourceText
  = List.filter (fun t => isOperator (fst t)) (countedTokens sourceText).
Proof.
  unfold operatorTokens, countedTokens. symmetry. apply filter_filter_bool.
  intros t Ht. now rewrite Ht.
Qed.

Lemma operandTokens_counted sourceText :
  operandTokens sourceText
  = List.filter (fun t => isOperand (fst t)) (countedTokens sourceText).
Proof.
  unfold operandTokens, countedTokens. symmetry. apply filter_filter_bool.
  intros t Ht. rewrite Ht. apply orb_true_r.
Qed.

Lemma lexemes_Permutation l l' : Permutation l l' -> lexemes l = lexemes l'.
Proof.
  intros Hperm. unfold lexemes. apply list_to_set_perm_L.
  now apply Permutation_map.
Qed.

(** X7. The Halstead volume of a text depends on the operator and operand
    tokens of its token stream only, and not on their order: two texts whose
    counted tokens are the same up to order have the same volume, whatever
    keywords, punctuation, white space and comments stand between them. *)
Theorem halsteadVolume_counted_tokens (text1 text2 : string) :
  Permutation (countedTokens text1) (countedTokens text2) ->
  calculateHalsteadVolume text1 = calculateHalsteadVolume text2.
Proof.
  intros Hperm. rewrite !calculateHalsteadVolume_stream. cbv zeta.
  unfold vocabularyOf. rewrite !operatorTokens_counted, !operandTokens_counted.
  pose proof (filter_Permutation_bool (fun t => isOperator (fst t)) _ _ Hperm) as Hops.
  pose proof (filter_Permutation_bool (fun t => isOperand (fst t)) _ _ Hperm) as Hnds.
  rewrite (Permutation_length Hops), (Permutation_length Hnds).
  now rewrite (lexemes_Permutation _ _ Hops), (lexemes_Permutation _ _ Hnds).
Qed.

Lemma Math_log2_2 : Math_log2 2 = 1.
Proof. unfold Math_log2. apply Rdiv_diag. pose proof ln_2_pos. lra. Qed.

Lemma ln_le_compat x y : 0 < x -> x <= y -> ln x <= ln y.
Proof.
  intros Hx [Hlt|<-]; [|lra]. left. now apply ln_increasing.
Qed.

Lemma Math_log2_le x y : 0 < x -> x <= y -> Math_log2 x <= Math_log2 y.
Proof.
  intros Hx Hxy. unfold Math_log2. pose proof ln_2_pos.
  apply Rmult_le_compat_r; [left; now apply Rinv_0_lt_compat|now apply ln_le_compat].
Qed.

Lemma calculateHalsteadVolume_cases (sourceText : string) :
  ((vocabularyOf sourceText <= 1)%nat /\ calculateHalsteadVolume sourceText = 0)
  \/ ((2 <= vocabularyOf sourceText)%nat
      /\ 2 <= calculateHalsteadVolume sourceText
      /\ INR (List.length (operatorTokens sourceText)
              + List.length (operandTokens sourceText))
         <= calculateHalsteadVolume sourceText
         <= INR (List.length (operatorTokens sourceText)
                 + List.length (operandTokens sourceText))
            * Math_log2 (INR (List.length (operatorTokens sourceText)
                              + List.length (operandTokens sourceText)))).
Proof.
  destruct (le_lt_dec (vocabularyOf sourceText) 1) as [Hle|Hgt].
  - left. split; [exact Hle|]. now apply halsteadVolume_zero_vocabulary.
  - right. split; [lia|].
    pose proof (vocabulary_le_length sourceText) as Hlen.
    rewrite calculateHalsteadVolume_stream. cbv zeta.
    destruct (Nat.ltb_spec 0 (vocabularyOf sourceText)); [|lia].
    set (N := (List.length (operatorTokens sourceText)
               + List.length (operandTokens sourceText))%nat) in *.
    assert (HN : 2 <= INR N) by (change 2 with (INR 2); apply le_INR; lia).
    assert (Hv : 2 <= INR (vocabularyOf sourceText))
      by (change 2 with (INR 2); apply le_INR; lia).
    assert (Hlog : 1 <= Math_log2 (INR (vocabularyOf sourceText)))
      by (rewrite <- Math_log2_2; apply Math_log2_le; lra).
    assert (Hlog' : Math_log2 (INR (vocabularyOf sourceText)) <= Math_log2 (INR N))
      by (apply Math_log2_le; [lra|apply le_INR; lia]).
    repeat split; nra.
Qed.


(** X8. The Halstead volume of a text is 0, when the vocabulary is at most 1,
    or at least 2: with a vocabulary of 2 or more it is at least the number
    [N] of operator and operand tokens and at most [N log2 N]. *)
Theorem halsteadVolume_range (sourceText : string) :
  ((vocabularyOf sourceText <= 1)%nat /\ calculateHalsteadVolume sourceText = 0)
  \/ ((2 <= vocabularyOf sourceText)%nat
      /\ 2 <= calculateHalsteadVolume sourceText
      /\ INR (List.length (operatorTokens sourceText)
              + List.length (operandTokens sourceText))
         <= calculateHalsteadVolume sourceText
         <= INR (List.length (operatorTokens sourceText)
                 + List.length (operandTokens sourceText))
            * Math_log2 (INR (List.length (operatorTokens sourceText)
                              + List.length (operandTokens sourceText)))).
Proof. exact (calculateHalsteadVolume_cases sourceText). Qed.

End HalsteadRange.

(** ** Maintainability index: how it moves with its arguments *)

Section MaintainabilityMonotone.
Local Open Scope R_scope.

Lemma isPositive_true x : 0 < x -> isPositive x = true.
Proof. intros Hx. unfold isPositive. destruct (Rlt_dec 0 x); [reflexivity|contradiction]. Qed.

(** X9. With the comment density and the multiplier fixed, the maintainability
    index does not go up when the cyclomatic complexity, a positive Halstead
    volume or a positive number of lines goes up. *)
Theorem maintainabilityIndex_antitone (cc cc' v v' loc loc' cd m : R) :
  cc <= cc' ->
  0 < v -> v <= v' ->
  0 < loc -> loc <= loc' ->
  calculateMaintainabilityIndex cc' v' loc' cd m
  <= calculateMaintainabilityIndex cc v loc cd m.
Proof.
  intros Hcc Hv Hvv Hloc Hll. unfold calculateMaintainabilityIndex. cbv zeta.
  rewrite !isPositive_true by lra.
  apply Rle_max_compat_l.
  pose proof (ln_le_compat v v' Hv Hvv). pose proof (ln_le_compat loc loc' Hloc Hll).
  lra.
Qed.

Lemma PI2_above_155 : 155 / 100 < PI / 2.
Proof.
  pose proof (PI_2_3_7_ineq 0) as [Hlow _].
  unfold sum_f_R0, tg_alt, PI_2_3_7_tg, Ratan_seq in Hlow. simpl in Hlow.
  lra.
Qed.

Lemma sqrt_24_below_155 x : 0 <= x -> x <= 1 -> 0 <= sqrt (2.4 * x) < 155 / 100.
Proof.
  intros H0 H1. split; [apply sqrt_pos|].
  rewrite <- (sqrt_square (155 / 100)) by lra.
  apply sqrt_lt_1_alt. lra.
Qed.

(** The sine of the bonus on comment densities: not negative, at most 1, and
    it goes up with the density. *)
Lemma bonus_sine_monotone cd cd' :
  0 <= cd -> cd <= cd' -> cd' <= 1 ->
  0 <= sin (sqrt (2.4 * cd)) <= sin (sqrt (2.4 * cd')) /\ sin (sqrt (2.4 * cd')) <= 1.
Proof.
  intros H0 Hle H1. pose proof PI2_above_155 as Hpi.
  pose proof (sqrt_24_below_155 cd H0 ltac:(lra)) as [Hs0 Hs1].
  pose proof (sqrt_24_below_155 cd' ltac:(lra) H1) as [Hs0' Hs1'].
  assert (Hss : sqrt (2.4 * cd) <= sqrt (2.4 * cd')) by (apply sqrt_le_1_alt; lra).
  repeat split.
  - apply sin_ge_0; lra.
  - apply sin_incr_1; lra.
  - apply SIN_bound.
Qed.

(** X10. On comment densities, that is between 0 and 1, the bonus of a
    multiplier that is not negative lies between 0 and the multiplier and grows
    with the density, and so does the maintainability index; with a negative
    multiplier the index falls as the density grows. *)
Theorem maintainabilityIndex_comment_density (cc v loc cd cd' m : R) :
  0 <= cd -> cd <= cd' -> cd' <= 1 ->
  (0 <= m ->
   0 <= commentBonus cd m <= commentBonus cd' m
   /\ commentBonus cd' m <= m
   /\ calculateMaintainabilityIndex cc v loc cd m
      <= calculateMaintainabilityIndex cc v loc cd' m)
  /\ (m <= 0 ->
      calculateMaintainabilityIndex cc v loc cd' m
      <= calculateMaintainabilityIndex cc v loc cd m).
Proof.
  intros H0 Hle H1.
  destruct (bonus_sine_monotone cd cd' H0 Hle H1) as [[Hs Hss] Hs1].
  unfold calculateMaintainabilityIndex, commentBonus. cbv zeta.
  split; intros Hm.
  - repeat split; try nra. apply Rle_max_compat_l. nra.
  - apply Rle_max_compat_l. nra.
Qed.

End MaintainabilityMonotone.

(** ** Cyclomatic complexity of a node and of the nodes below it *)

Lemma decisionPoints_children_sum cs :
  List.length (List.filter isDecisionPoint (flat_map preorder cs)) + List.length cs
  = list_sum (map calculateCyclomaticComplexity cs).
Proof.
  induction cs as [|c cs IH]; simpl; [reflexivity|].
  rewrite List.filter_app, List.length_app.
  unfold calculateCyclomaticComplexity at 1. rewrite visit_count. unfold decisionPoints.
  lia.
Qed.

Lemma decisionPoints_descendant root : forall d,
  In d (preorder root) ->
  List.length (decisionPoints d) <= List.length (decisionPoints root).
Proof.
  induction root as [root IH] using Node_children_ind. intros d Hd.
  destruct root as [k op nm b t cs]. simpl in Hd. destruct Hd as [<-|Hd]; [lia|].
  apply in_flat_map in Hd. destruct Hd as [c [Hc Hd]].
  simpl in IH. rewrite List.Forall_forall in IH.
  transitivity (List.length (decisionPoints c)); [now apply IH|].
  unfold decisionPoints. simpl preorder. simpl List.filter.
  assert (Hsub : List.length (List.filter isDecisionPoint (preorder c))
                 <= List.length (List.filter isDecisionPoint (flat_map preorder cs))).
  { clear IH Hd. induction cs as [|c' cs IHcs]; [destruct Hc|].
    simpl. rewrite List.filter_app, List.length_app.
    destruct Hc as [->|Hc]; [lia|]. specialize (IHcs Hc). lia. }
  destruct (isDecisionPoint (mkNode k op nm b t cs)); simpl; lia.
Qed.

(** X12. The cyclomatic complexity of a node is made of those of its
    children: each child brings its complexity less the base 1, and the node
    adds 1 when it is a decision point. So no node below a node, at any depth,
    has a higher complexity than the node: what a nested function counts, the
    enclosing function counts too. *)
Theorem cyclomaticComplexity_of_subtrees (node : Node) :
  calculateCyclomaticComplexity node + List.length (children node)
  = (if isDecisionPoint node then 2 else 1)
    + list_sum (map calculateCyclomaticComplexity (children node))
  /\ (forall d,
        In d (preorder node) ->
        calculateCyclomaticComplexity d <= calculateCyclomaticComplexity node).
Proof.
  split.
  - unfold calculateCyclomaticComplexity at 1. rewrite visit_count. unfold decisionPoints.
    destruct node as [k op nm b t cs]. simpl preorder. simpl List.filter. simpl children.
    rewrite <- decisionPoints_children_sum.
    destruct (isDecisionPoint (mkNode k op nm b t cs)); simpl; lia.
  - intros d Hd. unfold calculateCyclomaticComplexity. rewrite !visit_count.
    pose proof (decisionPoints_descendant node d Hd). lia.
Qed.

(** ** The records of an analysis *)

Section RecordsOfAnalysis.
Context {ts : TypeScript}.

(** A record of a returned analysis is the record of a function or method
    declaration with a body, made with the comment density of the analysis. *)
Lemma analyzeMethods_record_origin w filePath m analysis r :
  analyzeMethods w filePath m = Return analysis ->
  In r (results analysis) ->
  (0 <= commentDensity analysis <= 1)%R
  /\ exists d b,
       isFunctionOrMethod d = true
       /\ body d = Some b
       /\ r = {| methodName := default "<anonymous>" (name d);
                 cyclomatic := calculateCyclomaticComplexity b;
                 halsteadVolume := calculateHalsteadVolume (getText d);
                 loc := calculateLOC (getText d);
                 maintainabilityIndex :=
                   calculateMaintainabilityIndex
                     (INR (calculateCyclomaticComplexity b))
                     (calculateHalsteadVolume (getText d))
                     (INR (calculateLOC (getText d)))
                     (commentDensity analysis) (default 5%R m) |}.
Proof.
  intros Hreturn Hin.
  destruct (readSourceFile w filePath) as [sourceCode|e] eqn:Hread;
    [|rewrite (analyzeMethods_read_throws _ _ _ _ Hread) in Hreturn; discriminate].
  destruct (createSourceFile filePath sourceCode) as [sourceFile|e] eqn:Hparse;
    [|rewrite (analyzeMethods_parse_throws _ _ _ _ _ Hread Hparse) in Hreturn; discriminate].
  rewrite (analyzeMethods_returns _ _ _ _ _ Hread Hparse) in Hreturn.
  injection Hreturn as <-. cbn [results commentDensity] in *.
  split; [apply commentDensityOfLines_range|].
  apply In_omap in Hin. destruct Hin as [d [_ Hrecord]].
  unfold declarationRecord in Hrecord.
  destruct (isFunctionOrMethod d) eqn:Hkind; [|discriminate].
  destruct (body d) as [b|] eqn:Hbody; [|discriminate].
  injection Hrecord as <-. exists d, b. repeat split; assumption.
Qed.

Local Open Scope R_scope.

(** X11. In a returned analysis the maintainability index of a record is the
    index of its own three metrics with the comment density of the analysis and
    the multiplier of the call; its Halstead volume is 0 or at least 2; and
    the index is at most 100 plus the absolute value of the multiplier (at most
    100 without a bonus). *)
Theorem analyzeMethods_index_of_record
    (w : World) (filePath : string) (m : option R) (analysis : Analysis) (r : MetricRecord) :
  analyzeMethods w filePath m = Return analysis ->
  In r (results analysis) ->
  maintainabilityIndex r
  = calculateMaintainabilityIndex (INR (cyclomatic r)) (halsteadVolume r) (INR (loc r))
      (commentDensity analysis) (default 5 m)
  /\ (halsteadVolume r = 0 \/ 2 <= halsteadVolume r)
  /\ maintainabilityIndex r <= 100 + Rabs (default 5 m).
Proof.
  intros Hreturn Hin.
  destruct (analyzeMethods_record_origin _ _ _ _ _ Hreturn Hin) as [_ [d [b [_ [_ ->]]]]].
  cbn [cyclomatic halsteadVolume loc maintainabilityIndex].
  split; [reflexivity|].
  assert (Hvolume : calculateHalsteadVolume (getText d) = 0
                    \/ 2 <= calculateHalsteadVolume (getText d)).
  { destruct (calculateHalsteadVolume_cases (getText d)) as [[_ H0]|[_ [H2 _]]]; auto. }
  split; [exact Hvolume|].
  unfold calculateMaintainabilityIndex. cbv zeta. rewrite !safeValue_guard.
  assert (Hlnv : 0 <= ln (safeValue (calculateHalsteadVolume (getText d)))).
  { unfold safeValue. destruct (Rle_dec (calculateHalsteadVolume (getText d)) 0).
    - rewrite ln_1. lra.
    - rewrite <- ln_1. apply ln_le_compat; lra. }
  assert (Hlnl : 0 <= ln (safeValue (INR (calculateLOC (getText d))))).
  { unfold safeValue. destruct (Rle_dec (INR (calculateLOC (getText d))) 0).
    - rewrite ln_1. lra.
    - rewrite <- ln_1. apply ln_le_compat; [lra|].
      apply INR_ge_1, split_length_pos. }
  pose proof (pos_INR (calculateCyclomaticComplexity b)) as Hcc.
  assert (Hbonus : commentBonus (commentDensity analysis) (default 5 m) <= Rabs (default 5 m)).
  { unfold commentBonus.
    eapply Rle_trans; [apply Rle_abs|]. rewrite Rabs_mult.
    pose proof (Rabs_pos (default 5 m)).
    assert (Rabs (sin (sqrt (2.4 * commentDensity analysis))) <= 1)
      by (apply Rabs_le, SIN_bound).
    nra. }
  pose proof (Rabs_pos (default 5 m)).
  apply Rmax_lub; lra.
Qed.

End RecordsOfAnalysis.

(** ** The order of the records *)

Section RecordOrder.
Context {ts : TypeScript}.

Lemma forest_subtree cs :
  Forall (fun c => forall n, In n (preorder c) ->
                   exists before after, preorder c = before ++ preorder n ++ after) cs ->
  forall n, In n (flat_map preorder cs) ->
  exists before after, flat_map preorder cs = before ++ preorder n ++ after.
Proof.
  induction 1 as [|c cs Hc _ IH]; intros n Hn; [destruct Hn|].
  simpl in *. apply in_app_or in Hn. destruct Hn as [Hn|Hn].
  - destruct (Hc n Hn) as [before [after ->]].
    exists before, (after ++ flat_map preorder cs). now rewrite <- !app_assoc.
  - destruct (IH n Hn) as [before [after ->]].
    exists (preorder c ++ before), after. now rewrite <- !app_assoc.
Qed.

(** The nodes of a subtree stand together in the pre-order of the tree. *)
Lemma preorder_subtree root : forall n,
  In n (preorder root) ->
  exists before after, preorder root = before ++ preorder n ++ after.
Proof.
  induction root as [root IH] using Node_children_ind. intros n Hn.
  destruct root as [k op nm b t cs]. simpl in Hn. destruct Hn as [<-|Hn].
  - exists [], []. now rewrite app_nil_r.
  - simpl in IH. destruct (forest_subtree cs IH n Hn) as [before [after Heq]].
    exists (mkNode k op nm b t cs :: before), after. simpl. now rewrite Heq.
Qed.

(** X13. The records of an analysis keep the nesting of the tree: for every
    node of the tree, the record of the node (if it has one) is followed at once
    by the records of the declarations below its children, child after child,
    and only then by the records of what comes later in the file. *)
Theorem analyzeMethods_records_of_subtree
    (w : World) (filePath : string) (m : option R)
    (sourceCode : string) (sourceFile n : Node) :
  readSourceFile w filePath = Return sourceCode ->
  createSourceFile filePath sourceCode = Return sourceFile ->
  In n (preorder sourceFile) ->
  exists analysis before after,
    analyzeMethods w filePath m = Return analysis
    /\ results analysis
       = before
         ++ option_list (declarationRecord (commentDensity analysis) (default 5%R m) n)
         ++ flat_map (recordsOf (commentDensity analysis) (default 5%R m)) (children n)
         ++ after.
Proof.
  intros Hread Hparse Hn.
  destruct (preorder_subtree sourceFile n Hn) as [before [after Heq]].
  eexists. 
  exists (omap (declarationRecord (calculateCommentDensity sourceCode) (default 5%R m)) before),
         (omap (declarationRecord (calculateCommentDensity sourceCode) (default 5%R m)) after).
  split; [exact (analyzeMethods_returns w filePath m _ _ Hread Hparse)|].
  cbn [results commentDensity]. unfold recordsOf at 1. rewrite Heq, !omap_app.
  fold (recordsOf (calculateCommentDensity sourceCode) (default 5%R m) n).
  rewrite recordsOf_node. now rewrite <- !app_assoc.
Qed.

End RecordOrder.

(** ** The colours of the report *)

Section ReportColours.
Import Cli.
Local Open Scope R_scope.

Lemma colours_distinct :
  red colors <> yellow colors /\ red colors <> green colors
  /\ yellow colors <> green colors.
Proof. repeat split; discriminate. Qed.

(** The colour of a value against two thresholds it must reach. *)
Lemma colour_at_least x medium high :
  let colour := if geb x high then red colors
                else if geb x medium then yellow colors else green colors in
  (colour = red colors <-> high <= x)
  /\ (colour = yellow colors <-> medium <= x /\ x < high)
  /\ (colour = green colors <-> x < medium /\ x < high).
Proof.
  cbv zeta. destruct colours_distinct as [Hry [Hrg Hyg]].
  unfold geb. destruct (Rle_dec high x), (Rle_dec medium x);
    repeat split; intros; try lra; try congruence; try tauto.
Qed.

(** The colour of a value against two thresholds it must not fall below. *)
Lemma colour_below x low medium :
  let colour := if ltb x low then red colors
                else if ltb x medium then yellow colors else green colors in
  (colour = red colors <-> x < low)
  /\ (colour = yellow colors <-> low <= x /\ x < medium)
  /\ (colour = green colors <-> low <= x /\ medium <= x).
Proof.
  cbv zeta. destruct colours_distinct as [Hry [Hrg Hyg]].
  unfold ltb. destruct (Rlt_dec x low), (Rlt_dec x medium);
    repeat split; intros; try lra; try congruence; try tauto.
Qed.

(** X14. The colour of a cyclomatic complexity is red from the threshold
    [high] on, yellow from [medium] up to [high], green below both. A higher
    complexity never gets a milder colour; and when [high] is not above
    [medium] no complexity is yellow. *)
Theorem colorForCyclomatic_bands (config : Config) (cc cc' : R) :
  (colorForCyclomatic cc config = red colors
   <-> MediumHigh.high (cyclomatic config) <= cc)
  /\ (colorForCyclomatic cc config = yellow colors
      <-> MediumHigh.medium (cyclomatic config) <= cc
          /\ cc < MediumHigh.high (cyclomatic config))
  /\ (colorForCyclomatic cc config = green colors
      <-> cc < MediumHigh.medium (cyclomatic config)
          /\ cc < MediumHigh.high (cyclomatic config))
  /\ (cc <= cc' ->
      (colorForCyclomatic cc config = red colors ->
       colorForCyclomatic cc' config = red colors)
      /\ (colorForCyclomatic cc' config = green colors ->
          colorForCyclomatic cc config = green colors))
  /\ (MediumHigh.high (cyclomatic config) <= MediumHigh.medium (cyclomatic config) ->
      colorForCyclomatic cc config <> yellow colors).
Proof.
  pose proof (colour_at_least cc (MediumHigh.medium (cyclomatic config))
                (MediumHigh.high (cyclomatic config))) as [Hred [Hyellow Hgreen]].
  pose proof (colour_at_least cc' (MediumHigh.medium (cyclomatic config))
                (MediumHigh.high (cyclomatic config))) as [Hred' [_ Hgreen']].
  cbv zeta in *. fold (colorForCyclomatic cc config) in *.
  fold (colorForCyclomatic cc' config) in *.
  split; [exact Hred|split; [exact Hyellow|split; [exact Hgreen|split]]].
  - intros Hle. split.
    + intros Hc. apply Hred'. apply Hred in Hc. lra.
    + intros Hc. apply Hgreen. apply Hgreen' in Hc. lra.
  - intros Hcrossed Hc. apply Hyellow in Hc. lra.
Qed.

(** X15. The colour of a maintainability index is red below the threshold
    [low], yellow from [low] up to [medium], green from both on. A lower index
    never gets a milder colour; and when [medium] is not above [low] no index
    is yellow. *)
Theorem colorForMI_bands (config : Config) (mi mi' : R) :
  (colorForMI mi config = red colors
   <-> mi < LowMedium.low (maintainabilityIndex config))
  /\ (colorForMI mi config = yellow colors
      <-> LowMedium.low (maintainabilityIndex config) <= mi
          /\ mi < LowMedium.medium (maintainabilityIndex config))
  /\ (colorForMI mi config = green colors
      <-> LowMedium.low (maintainabilityIndex config) <= mi
          /\ LowMedium.medium (maintainabilityIndex config) <= mi)
  /\ (mi <= mi' ->
      (colorForMI mi' config = red colors -> colorForMI mi config = red colors)
      /\ (colorForMI mi config = green colors -> colorForMI mi' config = green colors))
  /\ (LowMedium.medium (maintainabilityIndex config)
      <= LowMedium.low (maintainabilityIndex config) ->
      colorForMI mi config <> yellow colors).
Proof.
  pose proof (colour_below mi (LowMedium.low (maintainabilityIndex config))
                (LowMedium.medium (maintainabilityIndex config))) as [Hred [Hyellow Hgreen]].
  pose proof (colour_below mi' (LowMedium.low (maintainabilityIndex config))
                (LowMedium.medium (maintainabilityIndex config))) as [Hred' [_ Hgreen']].
  cbv zeta in *. fold (colorForMI mi config) in *. fold (colorForMI mi' config) in *.
  split; [exact Hred|split; [exact Hyellow|split; [exact Hgreen|split]]].
  - intros Hle. split.
    + intros Hc. apply Hred. apply Hred' in Hc. lra.
    + intros Hc. apply Hgreen'. apply Hgreen in Hc. lra.
  - intros Hcrossed Hc. apply Hyellow in Hc. lra.
Qed.

(** X16. The colour of a number of lines is red from the threshold [high]
    on, yellow from [medium] up to [high], green below both. A longer function
    never gets a milder colour; and when [high] is not above [medium] no length
    is yellow. *)
Theorem colorForLOC_bands (config : Config) (lines lines' : R) :
  (colorForLOC lines config = red colors
   <-> MediumHigh.high (loc config) <= lines)
  /\ (colorForLOC lines config = yellow colors
      <-> MediumHigh.medium (loc config) <= lines
          /\ lines < MediumHigh.high (loc config))
  /\ (colorForLOC lines config = green colors
      <-> lines < MediumHigh.medium (loc config)
          /\ lines < MediumHigh.high (loc config))
  /\ (lines <= lines' ->
      (colorForLOC lines config = red colors -> colorForLOC lines' config = red colors)
      /\ (colorForLOC lines' config = green colors ->
          colorForLOC lines config = green colors))
  /\ (MediumHigh.high (loc config) <= MediumHigh.medium (loc config) ->
      colorForLOC lines config <> yellow colors).
Proof.
  pose proof (colour_at_least lines (MediumHigh.medium (loc config))
                (MediumHigh.high (loc config))) as [Hred [Hyellow Hgreen]].
  pose proof (colour_at_least lines' (MediumHigh.medium (loc config))
                (MediumHigh.high (loc config))) as [Hred' [_ Hgreen']].
  cbv zeta in *. fold (colorForLOC lines config) in *.
  fold (colorForLOC lines' config) in *.
  split; [exact Hred|split; [exact Hyellow|split; [exact Hgreen|split]]].
  - intros Hle. split.
    + intros Hc. apply Hred'. apply Hred in Hc. lra.
    + intros Hc. apply Hgreen. apply Hgreen' in Hc. lra.
  - intros Hcrossed Hc. apply Hyellow in Hc. lra.
Qed.

End ReportColours.

(** ** The properties on sample inputs *)

Section MoreSampleRuns.
Local Open Scope R_scope.

(** An indented block comment in a file with CR LF line ends, and the same
    comment without the padding. *)
Lemma commentDensity_ignores_padding_crlf :
  Forall2 (fun l l' => exists ws1 ws2,
               isBlank ws1 = true /\ isBlank ws2 = true /\ l' = (ws1 ++ l ++ ws2)%string)
    (split ("/* a" ++ String newline "b */") newline)
    (split ("  /* a" ++ carriageReturn ++ String newline (tab ++ "b */ ")) newline)
  /\ calculateCommentDensity
       ("  /* a" ++ carriageReturn ++ String newline (tab ++ "b */ "))
     = calculateCommentDensity ("/* a" ++ String newline "b */").
Proof.
  assert (Hpad :
    Forall2 (fun l l' => exists ws1 ws2,
                 isBlank ws1 = true /\ isBlank ws2 = true /\ l' = (ws1 ++ l ++ ws2)%string)
      (split ("/* a" ++ String newline "b */") newline)
      (split ("  /* a" ++ carriageReturn ++ String newline (tab ++ "b */ ")) newline)).
  { simpl. constructor; [|constructor; [|constructor]].
    - exists "  "%string, carriageReturn. repeat split; reflexivity.
    - exists tab, " "%string. repeat split; reflexivity. }
  split; [exact Hpad|].
  exact (commentDensity_ignores_padding _ _ Hpad).
Defined.

Lemma commentDensity_line_comments_two :
  [ "// a"; "  // b" ]%string <> []
  /\ calculateCommentDensity ("// a" ++ String newline "  // b") = 1
  /\ calculateCommentDensity ("// a" ++ String newline ("  // b" ++ String newline "")) = 2 / 3.
Proof.
  assert (Hne : [ "// a"; "  // b" ]%string <> []) by discriminate.
  assert (Hall : Forall (fun l => exists ws rest,
                             isBlank ws = true /\ l = (ws ++ "//" ++ rest)%string)
                   [ "// a"; "  // b" ]%string).
  { constructor; [|constructor; [|constructor]].
    - exists ""%string, " a"%string. split; reflexivity.
    - exists "  "%string, " b"%string. split; reflexivity. }
  destruct (commentDensity_line_comments _ Hne Hall) as [Hfull Htrailing].
  split; [exact Hne|split].
  - apply Hfull. reflexivity.
  - rewrite Htrailing by reflexivity. simpl. lra.
Defined.

Lemma commentDensity_no_marker_trailing :
  Forall (fun l => startsWith (trim l) "//" = false /\ startsWith (trim l) "/*" = false)
    (split ("x = 1; // c" ++ String newline "y = 2; /* d */") newline)
  /\ calculateCommentDensity ("x = 1; // c" ++ String newline "y = 2; /* d */") = 0.
Proof.
  assert (Hnone :
    Forall (fun l => startsWith (trim l) "//" = false /\ startsWith (trim l) "/*" = false)
      (split ("x = 1; // c" ++ String newline "y = 2; /* d */") newline)).
  { simpl split. repeat constructor. }
  split; [exact Hnone|]. exact (commentDensity_no_marker _ Hnone).
Defined.

Lemma commentDensity_unterminated_block_sample :
  inBlockCommentAfter [ "x"%string ] = false
  /\ countCommentLines ([ "x" ] ++ "/* a" :: [ "b"; "c" ])%list = 3%nat
  /\ calculateCommentDensity
       ("x" ++ String newline ("/* a" ++ String newline ("b" ++ String newline "c")))
     = 3 / 4.
Proof.
  assert (Hbefore : inBlockCommentAfter [ "x"%string ] = false) by reflexivity.
  assert (Hopen : startsWith (trim "/* a") "/*" = true) by reflexivity.
  assert (Hclosed : Forall (fun l => includes (trim l) "*/" = false)
                      [ "/* a"; "b"; "c" ]%string) by (repeat constructor).
  destruct (commentDensity_unterminated_block [ "x"%string ] "/* a" [ "b"; "c" ]%string
              Hbefore Hopen Hclosed) as [Hcount Hdensity].
  split; [exact Hbefore|split; [exact Hcount|]].
  rewrite Hdensity by reflexivity. simpl. lra.
Defined.

(** The function [add] and the function with its operands swapped. *)
Lemma halsteadVolume_counted_tokens_swapped :
  Permutation (countedTokens (ts := Swapped.typescript) Sample.addText)
    (countedTokens (ts := Swapped.typescript) Swapped.swappedText)
  /\ calculateHalsteadVolume (ts := Swapped.typescript) Sample.addText
     = calculateHalsteadVolume (ts := Swapped.typescript) Swapped.swappedText.
Proof.
  assert (Hperm :
    Permutation (countedTokens (ts := Swapped.typescript) Sample.addText)
      (countedTokens (ts := Swapped.typescript) Swapped.swappedText)).
  { change (Permutation
              [ (Identifier, "add"); (Identifier, "a"); (Identifier, "b");
                (Identifier, "a"); (PlusToken, "+"); (Identifier, "b") ]%string
              [ (Identifier, "add"); (Identifier, "b"); (Identifier, "a");
                (Identifier, "b"); (PlusToken, "+"); (Identifier, "a") ]%string).
    apply perm_skip.
    eapply perm_trans; [apply perm_swap|]. do 2 apply perm_skip.
    eapply perm_trans; [apply perm_swap|].
    eapply perm_trans; [apply perm_skip, perm_swap|]. apply perm_swap. }
  split; [exact Hperm|].
  exact (halsteadVolume_counted_tokens (ts := Swapped.typescript) _ _ Hperm).
Defined.

Lemma maintainabilityIndex_antitone_sample :
  calculateMaintainabilityIndex 2 20 3 (1 / 2) 5
  <= calculateMaintainabilityIndex 1 12 1 (1 / 2) 5.
Proof. apply maintainabilityIndex_antitone; lra. Defined.

Lemma maintainabilityIndex_comment_density_sample :
  calculateMaintainabilityIndex 1 12 1 0 5
  <= calculateMaintainabilityIndex 1 12 1 (1 / 2) 5.
Proof.
  apply (maintainabilityIndex_comment_density 1 12 1 0 (1 / 2) 5); lra.
Defined.

Lemma cyclomaticComplexity_of_subtrees_nested :
  In Sample.innerBody (preorder Sample.outerBody)
  /\ (calculateCyclomaticComplexity Sample.innerBody
      <= calculateCyclomaticComplexity Sample.outerBody)%nat.
Proof.
  assert (Hin : In Sample.innerBody (preorder Sample.outerBody))
    by (simpl; do 5 right; left; reflexivity).
  split; [exact Hin|].
  exact (proj2 (cyclomaticComplexity_of_subtrees Sample.outerBody) _ Hin).
Defined.

Lemma colorForCyclomatic_bands_crossed :
  Cli.colorForCyclomatic 8 Cli.crossedConfig <> Cli.yellow Cli.colors
  /\ (10 <= 12)%R
  /\ Cli.colorForCyclomatic 10 Cli.defaultConfig = Cli.red Cli.colors
  /\ Cli.colorForCyclomatic 12 Cli.defaultConfig = Cli.red Cli.colors.
Proof.
  assert (Hred : Cli.colorForCyclomatic 10 Cli.defaultConfig = Cli.red Cli.colors).
  { apply (proj1 (colorForCyclomatic_bands Cli.defaultConfig 10 10)). simpl. lra. }
  split; [|split; [lra|split; [exact Hred|]]].
  - apply (proj2 (proj2 (proj2 (proj2 (colorForCyclomatic_bands Cli.crossedConfig 8 8))))).
    simpl. lra.
  - apply (proj1 (proj2 (proj2 (proj2 (colorForCyclomatic_bands Cli.defaultConfig 10 12)))));
      [lra|exact Hred].
Defined.

Lemma colorForMI_bands_crossed :
  Cli.colorForMI 50 Cli.crossedConfig <> Cli.yellow Cli.colors
  /\ (20 <= 30)%R
  /\ Cli.colorForMI 30 Cli.defaultConfig = Cli.red Cli.colors
  /\ Cli.colorForMI 20 Cli.defaultConfig = Cli.red Cli.colors.
Proof.
  assert (Hred : Cli.colorForMI 30 Cli.defaultConfig = Cli.red Cli.colors).
  { apply (proj1 (colorForMI_bands Cli.defaultConfig 30 30)). simpl. lra. }
  split; [|split; [lra|split; [exact Hred|]]].
  - apply (proj2 (proj2 (proj2 (proj2 (colorForMI_bands Cli.crossedConfig 50 50))))).
    simpl. lra.
  - apply (proj1 (proj2 (proj2 (proj2 (colorForMI_bands Cli.defaultConfig 20 30)))));
      [lra|exact Hred].
Defined.

Lemma colorForLOC_bands_crossed :
  Cli.colorForLOC 30 Cli.crossedConfig <> Cli.yellow Cli.colors
  /\ (40 <= 50)%R
  /\ Cli.colorForLOC 40 Cli.defaultConfig = Cli.red Cli.colors
  /\ Cli.colorForLOC 50 Cli.defaultConfig = Cli.red Cli.colors.
Proof.
  assert (Hred : Cli.colorForLOC 40 Cli.defaultConfig = Cli.red Cli.colors).
  { apply (proj1 (colorForLOC_bands Cli.defaultConfig 40 40)). simpl. lra. }
  split; [|split; [lra|split; [exact Hred|]]].
  - apply (proj2 (proj2 (proj2 (proj2 (colorForLOC_bands Cli.crossedConfig 30 30))))).
    simpl. lra.
  - apply (proj1 (proj2 (proj2 (proj2 (colorForLOC_bands Cli.defaultConfig 40 50)))));
      [lra|exact Hred].
Defined.

End MoreSampleRuns.

Section MoreSampleAnalyses.
Import Sample.

Lemma analyzeMethods_index_of_record_add :
  exists analysis r,
    analyzeMethods world "/src/add.ts" None = Return analysis
    /\ In r (results analysis)
    /\ methodName r = "add"
    /\ (maintainabilityIndex r <= 100 + Rabs 5)%R.
Proof.
  assert (Hreturn : analyzeMethods world "/src/add.ts" None
                    = Return {| results := recordsOf (calculateCommentDensity addSource)
                                             5%R addFile;
                                commentDensity := calculateCommentDensity addSource |})
    by (apply (analyzeMethods_returns world "/src/add.ts" None addSource addFile);
        reflexivity).
  destruct (declarationRecord (calculateCommentDensity addSource) 5%R addDeclaration)
    as [r|] eqn:Hrecord; [|discriminate Hrecord].
  assert (Hin : In r (recordsOf (calculateCommentDensity addSource) 5%R addFile)).
  { apply In_omap. exists addDeclaration. split; [|exact Hrecord]. simpl. auto. }
  eexists. exists r. split; [exact Hreturn|]. split; [exact Hin|]. split.
  - injection Hrecord as <-. reflexivity.
  - exact (proj2 (proj2 (analyzeMethods_index_of_record
                           world "/src/add.ts" None _ r Hreturn Hin))).
Defined.

Lemma analyzeMethods_records_of_subtree_nested :
  In outerDeclaration (preorder nestedFile)
  /\ exists analysis before after,
       analyzeMethods world "/src/nested.ts" None = Return analysis
       /\ results analysis
          = before
            ++ option_list (declarationRecord (commentDensity analysis) 5%R outerDeclaration)
            ++ flat_map (recordsOf (commentDensity analysis) 5%R) (children outerDeclaration)
            ++ after.
Proof.
  assert (Hread : readSourceFile world "/src/nested.ts" = Return nestedSource)
    by reflexivity.
  assert (Hparse : createSourceFile "/src/nested.ts" nestedSource = Return nestedFile)
    by reflexivity.
  assert (Hin : In outerDeclaration (preorder nestedFile))
    by (simpl; right; left; reflexivity).
  split; [exact Hin|].
  exact (analyzeMethods_records_of_subtree
           world "/src/nested.ts" None nestedSource nestedFile outerDeclaration
           Hread Hparse Hin).
Defined.

End MoreSampleAnalyses.
